(** * OptionPricing: Black-Scholes-Merton pricing, ATM selection, expiry
      normalisation and mispricing

    A shallow embedding of [OptionPricingDash.py], [live_data.py] and
    [atm_option_analysis.py].

    Numbers.  Python and numpy floats are modelled as real numbers: [ln],
    [exp] and [sqrt] are the real functions, comparisons are the real order.
    Rounding and not-a-number are outside the model.  Overflow is modelled
    where it changes what the code does: [math.exp] and the power of a
    Python float raise [OverflowError] when the exact result exceeds the
    largest binary64 number ([math_exp], [float_pow2]), and the mispricing
    arithmetic on numpy floats, which never raises, yields a non-finite
    value at a zero divisor or beyond that number ([truediv], [scale]).
    An overflow that only turns a value of a returned dictionary into
    [inf] is not modelled: the value is the real one.

    Effects.  A Python expression either yields a value or raises
    ([outcome]); what a function prints is returned next to its value as
    the list of printed lines. *)

From Stdlib Require Import Reals Lra Lia List String ZArith Bool Permutation.
Import ListNotations.
Open Scope R_scope.

(** ** Python values and control flow *)

Inductive exn : Type :=
| ValueError (msg : string)
| KeyError (key : string)
| OverflowError (msg : string).

Inductive outcome (A : Type) : Type :=
| Normal (a : A)
| Raised (e : exn).
Arguments Normal {A} a.
Arguments Raised {A} e.

(** [str(e)] of an exception, as an f-string renders it. *)
Definition str_exn (e : exn) : string :=
  match e with
  | ValueError msg => msg
  | KeyError key => ("'" ++ key ++ "'")%string
  | OverflowError msg => msg
  end.

(** Sequencing of expressions that may raise. *)
Definition bind {A B : Type} (o : outcome A) (k : A -> outcome B)
    : outcome B :=
  match o with
  | Normal a => k a
  | Raised e => Raised e
  end.

Notation "x <- o ;; k" := (bind o (fun x => k))
  (at level 61, o at next level, right associativity).

(** A result dictionary: keys in insertion order. *)
Definition dict : Type := list (string * R).

Fixpoint dict_get (d : dict) (key : string) : option R :=
  match d with
  | [] => None
  | (k, v) :: rest => if String.eqb k key then Some v else dict_get rest key
  end.

(** [d[key]]: raises [KeyError] on a missing key. *)
Definition getitem (d : dict) (key : string) : outcome R :=
  match dict_get d key with
  | Some v => Normal v
  | None => Raised (KeyError key)
  end.

(** The builtin [max(a, b)]: [a] unless [b > a]. *)
Definition py_max (a b : R) : R := if Rlt_dec a b then b else a.

(** The builtin [min(iterable, key=...)]: the running best is replaced only
    by an item whose key is strictly smaller; an empty iterable raises
    [ValueError]. *)
Fixpoint min_loop {A : Type} (key : A -> R) (minitem : A) (minval : R)
    (it : list A) : A :=
  match it with
  | [] => minitem
  | item :: rest =>
      if Rlt_dec (key item) minval
      then min_loop key item (key item) rest
      else min_loop key minitem minval rest
  end.

Definition py_min {A : Type} (key : A -> R) (it : list A) : outcome A :=
  match it with
  | [] => Raised (ValueError "min() arg is an empty sequence")
  | item :: rest => Normal (min_loop key item (key item) rest)
  end.

(** The largest binary64 number, (2 - 2^-52) * 2^1023. *)
Definition float_max : R := (2 - / 2 ^ 52) * 2 ^ 1023.

(** The dynamic type of a float argument: a Python [float] or a numpy
    [float64].  The two differ in what an overflowing power does. *)
Inductive float_kind : Type :=
| py_float
| np_float64.

(** [math.exp(x)]: raises [OverflowError] when the result overflows at a
    finite argument; an argument that is itself beyond the float range is
    [inf], at which [math.exp] returns without raising. *)
Definition math_exp (x : R) : outcome R :=
  if Rlt_dec float_max (exp x) then
    if Rle_dec x float_max
    then Raised (OverflowError "math range error")
    else Normal (exp x)
  else Normal (exp x).

(** [x ** 2]: on a Python float an overflowing power raises
    [OverflowError] (the message is the C library's text for ERANGE, here
    glibc's); on a numpy float64 it does not raise. *)
Definition float_pow2 (kind : float_kind) (x : R) : outcome R :=
  match kind with
  | np_float64 => Normal (x ^ 2)
  | py_float =>
      if Rlt_dec float_max (x ^ 2)
      then Raised (OverflowError "(34, 'Numerical result out of range')")
      else Normal (x ^ 2)
  end.

(** A numpy float64 as far as the mispricing needs it: a real, or one of
    [inf], [-inf], [nan]. *)
Inductive float64 : Type :=
| Finite (x : R)
| NonFinite.

(** The float64 of an exact result: beyond the float range it is
    infinite. *)
Definition to_float64 (x : R) : float64 :=
  if Rle_dec (Rabs x) float_max then Finite x else NonFinite.

(** numpy's [v / y]: no exception at [y = 0], the quotient is non-finite;
    it is non-finite too when it overflows. *)
Definition truediv (v : float64) (y : R) : float64 :=
  match v with
  | Finite x => if Req_dec_T y 0 then NonFinite else to_float64 (x / y)
  | NonFinite => NonFinite
  end.

(** [v * c] for a finite non-zero constant [c]: non-finite stays
    non-finite, and the product is non-finite when it overflows. *)
Definition scale (v : float64) (c : R) : float64 :=
  match v with
  | Finite x => to_float64 (x * c)
  | NonFinite => NonFinite
  end.

(** [scipy.stats.norm]: the object whose [pdf] and [cdf] methods the
    pricing function calls.  It is a parameter of the development. *)
Record rv_continuous : Type := {
  pdf : R -> R;
  cdf : R -> R
}.

(** ** OptionPricingDash.py *)

Module OptionPricingDash.
Section WithNorm.

Variable norm : rv_continuous.

(** The dynamic type of the argument [vol]. *)
Variable vol_kind : float_kind.

(** The body of the [try] block, with [T] and [vol] already floored.  The
    expressions that can raise are evaluated in the order of the source:
    [vol**2] on line 20, [exp(-q * T)] first on line 24, [exp(-r * T)]
    first on line 28 or 47; once one has returned, its later evaluations
    return the same value. *)
Definition black_scholes_try (S K r T q vol : R) (option_type : string)
    : outcome dict :=
  vol2 <- float_pow2 vol_kind vol ;;
  let d1 := (ln (S / K) + (r - q + 0.5 * vol2) * T) / (vol * sqrt T) in
  let d2 := d1 - vol * sqrt T in
  exp_qT <- math_exp (- q * T) ;;
  let gamma := pdf norm d1 * exp_qT / (S * vol * sqrt T) in
  let vega := S * pdf norm d1 * sqrt T * exp_qT / 100 in
  if String.eqb option_type "call" then
    exp_rT <- math_exp (- r * T) ;;
    let price := S * exp_qT * cdf norm d1 - K * exp_rT * cdf norm d2 in
    let delta := cdf norm d1 * exp_qT in
    let theta :=
      ((- S * pdf norm d1 * vol * exp_qT) / (2 * sqrt T)
       - r * K * exp_rT * cdf norm d2
       + q * S * exp_qT * cdf norm d1) / 365 in
    let rho := K * T * exp_rT * cdf norm d2 / 100 in
    Normal [("Call Price", price); ("Call Delta", delta);
            ("Call Gamma", gamma); ("Call Vega", vega);
            ("Call Theta", theta); ("Call Rho", rho)]%string
  else if String.eqb option_type "put" then
    exp_rT <- math_exp (- r * T) ;;
    let price :=
      K * exp_rT * cdf norm (- d2) - S * exp_qT * cdf norm (- d1) in
    let delta := exp_qT * (cdf norm d1 - 1) in
    let theta :=
      ((- S * pdf norm d1 * vol * exp_qT) / (2 * sqrt T)
       + r * K * exp_rT * cdf norm (- d2)
       - q * S * exp_qT * cdf norm (- d1)) / 365 in
    let rho := - K * T * exp_rT * cdf norm (- d2) / 100 in
    Normal [("Put Price", price); ("Put Delta", delta);
            ("Put Gamma", gamma); ("Put Vega", vega);
            ("Put Theta", theta); ("Put Rho", rho)]%string
  else
    Raised (ValueError "option_type must be either 'call' or 'put'").

(** [black_scholes]: the returned value ([None] or the dictionary) and the
    lines it prints. *)
Definition black_scholes (S K r T q vol : R) (option_type : string)
    : option dict * list string :=
  if Rle_dec S 0 then (None, [])
  else if Rle_dec K 0 then (None, [])
  else if Rle_dec T 0 then (None, [])
  else if Rle_dec vol 0 then (None, [])
  else
    let T := py_max T (1 / 365) in
    let vol := py_max vol 0.001 in
    match black_scholes_try S K r T q vol option_type with
    | Normal result => (Some result, [])
    | Raised e =>
        (None, [("Error in Black-Scholes calculation: " ++ str_exn e)%string])
    end.

End WithNorm.
End OptionPricingDash.

(** ** The two scripts *)

(** A row of an option-chain table and the table itself
    (a pandas DataFrame, rows in order). *)
Record OptionQuote : Type := {
  strike : R;
  impliedVolatility : R;
  lastPrice : R;
  bid : R;
  ask : R;
  volume : R
}.

Definition DataFrame : Type := list OptionQuote.

(** [df.empty] *)
Definition empty (df : DataFrame) : bool :=
  match df with [] => true | _ :: _ => false end.

(** [df['strike'].tolist()] *)
Definition strike_tolist (df : DataFrame) : list R := map strike df.

(** [((market_price - model_price) / model_price) * 100], the expression
    both scripts evaluate, on numpy floats. *)
Definition mispricing_pct (market_price model_price : R) : float64 :=
  scale (truediv (to_float64 (market_price - model_price)) model_price) 100.

(** The block [if bs is not None: price = bs[key]; mispricing = ...]:
    [None] when the [else] branch is taken and no percentage is computed. *)
Definition mispricing_block (key : string) (market_price : R)
    (bs : option dict) : outcome (option float64) :=
  match bs with
  | Some d =>
      match getitem d key with
      | Normal model_price => Normal (Some (mispricing_pct market_price model_price))
      | Raised e => Raised e
      end
  | None => Normal None
  end.

(** [df[df['strike'] == k]]: the rows at strike [k], in order. *)
Definition loc_strike (df : DataFrame) (k : R) : DataFrame :=
  filter (fun row => if Req_dec_T (strike row) k then true else false) df.

(** The items of a result other than its price: the loop
    [for greek, val in bs.items(): if greek != price_key] of [live_data.py]
    and the comprehension [greeks_data] of [atm_option_analysis.py]. *)
Definition greeks_data (price_key : string) (bs : dict) : dict :=
  filter (fun kv => negb (String.eqb (fst kv) price_key)) bs.

(** What one analysis section (call or put) of a script comes to.  Each
    case is one branch of the source; the lines a branch prints with
    formatted numbers are not modelled. *)
Inductive section_result : Type :=
| Skipped      (* the table of ATM rows is empty, the section does not run *)
| InvalidIV    (* implied volatility <= 0: the error message only *)
| NoModel      (* [black_scholes] returned [None] *)
| Model (bs : dict) (mispricing : float64) (greeks : dict).

(** One analysis section, for a side and its price key: the first ATM row
    ([.values[0]]), the gate on the implied volatility (its not-a-number
    test is outside the real-number model), the pricing call with the
    row's numpy volatility, the mispricing and the Greeks shown. *)
Definition analysis_section (norm : rv_continuous) (r q : R)
    (side price_key : string) (atm_rows : DataFrame)
    (spot_price atm_strike T : R) : outcome section_result :=
  match atm_rows with
  | [] => Normal Skipped
  | row :: _ =>
      let iv := impliedVolatility row in
      let market_price := lastPrice row in
      if Rle_dec iv 0 then Normal InvalidIV
      else
        let bs :=
          fst (OptionPricingDash.black_scholes norm np_float64 spot_price
                 atm_strike r T q iv side) in
        match bs with
        | Some d =>
            match getitem d price_key with
            | Normal bsm_price =>
                Normal (Model d (mispricing_pct market_price bsm_price)
                          (greeks_data price_key d))
            | Raised e => Raised e
            end
        | None => Normal NoModel
        end
  end.

(** What a script has computed from the option chain on. *)
Record report : Type := {
  report_atm_strike : R;
  report_T : R;
  report_call : section_result;
  report_put : section_result
}.

(** [live_data.py], function [main]. *)
Module live_data.

(** Lines 41-42: [min(strikes, key=lambda x: abs(x - spot_price))]. *)
Definition atm_strike (strikes : list R) (spot_price : R) : outcome R :=
  py_min (fun x => Rabs (x - spot_price)) strikes.

(** Lines 36-42: the empty-table gate, then the selection.  [Normal None]
    is [main] returning early. *)
Definition find_atm (calls puts : DataFrame) (spot_price : R)
    : outcome (option R) * list string :=
  if empty calls || empty puts then
    (Normal None,
     ["Error: No option chain data available for selected expiry"%string])
  else
    (match atm_strike (strike_tolist calls) spot_price with
     | Normal k => Normal (Some k)
     | Raised e => Raised e
     end, []).

(** Lines 54-58: time to expiry from the whole-day difference, and the
    warning printed. *)
Definition T (days_to_expiry : Z) : R * list string :=
  if (days_to_expiry <=? 0)%Z then
    (1 / 365,
     ["⚠️ Warning: Option is expiring today or has expired. Using minimum time value."%string])
  else
    (IZR days_to_expiry / 365, []).

(** Lines 90-92 and 127-129. *)
Definition mispricing_call := mispricing_block "Call Price".
Definition mispricing_put := mispricing_block "Put Price".

(** Lines 64-65: the market parameters. *)
Definition r : R := 0.04.
Definition q : R := 0.01.

(** Lines 68-102 and 105-139: the call and the put analysis. *)
Definition call_section (norm : rv_continuous) :=
  analysis_section norm r q "call" "Call Price".
Definition put_section (norm : rv_continuous) :=
  analysis_section norm r q "put" "Put Price".

(** Lines 36-139: [main] from the option chain on.  [Normal None] is the
    early return of the gate; an exception would reach the handler at the
    end of [main]. *)
Definition main_chain (norm : rv_continuous) (spot_price : R)
    (calls puts : DataFrame) (days_to_expiry : Z) : outcome (option report) :=
  match fst (find_atm calls puts spot_price) with
  | Raised e => Raised e
  | Normal None => Normal None
  | Normal (Some atm_strike) =>
      let atm_call := loc_strike calls atm_strike in
      let atm_put := loc_strike puts atm_strike in
      let T := fst (T days_to_expiry) in
      match call_section norm atm_call spot_price atm_strike T with
      | Raised e => Raised e
      | Normal c =>
          match put_section norm atm_put spot_price atm_strike T with
          | Raised e => Raised e
          | Normal p =>
              Normal (Some {| report_atm_strike := atm_strike;
                              report_T := T;
                              report_call := c;
                              report_put := p |})
          end
      end
  end.

End live_data.

(** [atm_option_analysis.py], the script body. *)
Module atm_option_analysis.

(** Lines 46-47. *)
Definition atm_strike (strikes : list R) (spot_price : R) : outcome R :=
  py_min (fun x => Rabs (x - spot_price)) strikes.

(** Lines 41-47: [st.error] and [st.stop()] on an empty table, then the
    selection.  [Normal None] is the script stopped. *)
Definition find_atm (calls puts : DataFrame) (spot_price : R)
    : outcome (option R) * list string :=
  if empty calls || empty puts then
    (Normal None,
     ["No option chain data available for selected expiry"%string])
  else
    (match atm_strike (strike_tolist calls) spot_price with
     | Normal k => Normal (Some k)
     | Raised e => Raised e
     end, []).

(** Lines 62-66: time to expiry, and the [st.warning] shown. *)
Definition T (days_to_expiry : Z) : R * list string :=
  if (days_to_expiry <=? 0)%Z then
    (1 / 365,
     ["⚠️ Option is expiring today or has expired. Using minimum time value."%string])
  else
    (IZR days_to_expiry / 365, []).

(** Lines 107-109 and 163-165. *)
Definition mispricing_call := mispricing_block "Call Price".
Definition mispricing_put := mispricing_block "Put Price".

(** Lines 72-73: the market parameters. *)
Definition r : R := 0.04.
Definition q : R := 0.01.

(** Lines 79-132 and 135-188: the call and the put analysis. *)
Definition call_section (norm : rv_continuous) :=
  analysis_section norm r q "call" "Call Price".
Definition put_section (norm : rv_continuous) :=
  analysis_section norm r q "put" "Put Price".

(** Lines 41-188: the script from the option chain on, for the side chosen
    with the radio button; only that side's section runs. *)
Definition script_chain (norm : rv_continuous) (spot_price : R)
    (calls puts : DataFrame) (days_to_expiry : Z) (option_type : string)
    : outcome (option report) :=
  match fst (find_atm calls puts spot_price) with
  | Raised e => Raised e
  | Normal None => Normal None
  | Normal (Some atm_strike) =>
      let atm_call := loc_strike calls atm_strike in
      let atm_put := loc_strike puts atm_strike in
      let T := fst (T days_to_expiry) in
      if String.eqb option_type "Call" && negb (empty atm_call) then
        match call_section norm atm_call spot_price atm_strike T with
        | Raised e => Raised e
        | Normal c =>
            Normal (Some {| report_atm_strike := atm_strike;
                            report_T := T;
                            report_call := c;
                            report_put := Skipped |})
        end
      else if String.eqb option_type "Put" && negb (empty atm_put) then
        match put_section norm atm_put spot_price atm_strike T with
        | Raised e => Raised e
        | Normal p =>
            Normal (Some {| report_atm_strike := atm_strike;
                            report_T := T;
                            report_call := Skipped;
                            report_put := p |})
        end
      else
        Normal (Some {| report_atm_strike := atm_strike;
                        report_T := T;
                        report_call := Skipped;
                        report_put := Skipped |})
  end.

End atm_option_analysis.

(** ** Reference formulas and instances *)

(** The Black-Scholes-Merton terms, as the specification writes them. *)
Definition d1_spec (S K r q sigma T : R) : R :=
  (ln (S / K) + (r - q + 0.5 * (sigma * sigma)) * T) / (sigma * sqrt T).

Definition d2_spec (S K r q sigma T : R) : R :=
  d1_spec S K r q sigma T - sigma * sqrt T.

(** The floors the pricing function applies. *)
Definition T_floor : R := 1 / 365.
Definition vol_floor : R := 0.001.

(** [math.exp(x)] returns: its result is within the float range, or [x]
    itself is beyond it. *)
Definition exp_ok (x : R) : Prop := exp x <= float_max \/ float_max < x.

(** [x ** 2] returns for an [x] of the given type. *)
Definition pow2_ok (kind : float_kind) (x : R) : Prop :=
  kind = np_float64 \/ x ^ 2 <= float_max.

(** Nothing overflows inside the [try] block: the power of the floored
    volatility and the two discount factors at the floored time return. *)
Definition no_overflow (kind : float_kind) (r T q vol : R) : Prop :=
  pow2_ok kind (Rmax vol vol_floor) /\
  exp_ok (- (q * Rmax T T_floor)) /\
  exp_ok (- (r * Rmax T T_floor)).

(** [x] is within the float range. *)
Definition in_range (x : R) : Prop := Rabs x <= float_max.

(** The logistic distribution: a concrete symmetric distribution on which
    the theorems below are run. *)
Definition logistic : rv_continuous := {|
  pdf := fun x => exp (- x) / ((1 + exp (- x)) * (1 + exp (- x)));
  cdf := fun x => / (1 + exp (- x))
|}.

(** A row of a chain, for the runs on concrete tables. *)
Definition quote100 : OptionQuote := {|
  strike := 100; impliedVolatility := 0.2; lastPrice := 6;
  bid := 5.9; ask := 6.1; volume := 10
|}.

(** [k] is the first strike of [strikes] at minimal distance from [spot]. *)
Definition stable_argmin (strikes : list R) (spot k : R) : Prop :=
  (forall x, In x strikes -> Rabs (k - spot) <= Rabs (x - spot)) /\
  exists before after,
    strikes = before ++ k :: after /\
    forall x, In x before -> Rabs (k - spot) < Rabs (x - spot).

(** How the outcome [res] of an analysis section follows from its inputs:
    the branch taken and, when a price was computed, the result of the
    pricing function it comes from. *)
Definition section_outcome (norm : rv_continuous) (r q : R)
    (side price_key : string) (atm_rows : DataFrame)
    (spot_price atm_strike T : R) (res : section_result) : Prop :=
  match atm_rows with
  | [] => res = Skipped
  | row :: _ =>
      let iv := impliedVolatility row in
      (iv <= 0 /\ res = InvalidIV) \/
      (0 < iv /\ (spot_price <= 0 \/ atm_strike <= 0 \/ T <= 0) /\
       res = NoModel) \/
      (0 < iv /\ 0 < spot_price /\ 0 < atm_strike /\ 0 < T /\
       exists d p,
         OptionPricingDash.black_scholes norm np_float64 spot_price
           atm_strike r T q iv side = (Some d, []) /\
         dict_get d price_key = Some p /\
         res = Model d (mispricing_pct (lastPrice row) p)
                 (greeks_data price_key d))
  end.

(** ** Basic facts *)

Lemma py_max_Rmax (a b : R) : py_max a b = Rmax a b.
Proof.
  unfold py_max, Rmax.
  destruct (Rlt_dec a b), (Rle_dec a b); lra.
Qed.

Lemma py_max_floor (a b : R) : a <= b -> py_max a b = py_max b b.
Proof.
  intros Hab. unfold py_max.
  destruct (Rlt_dec a b), (Rlt_dec b b); lra.
Qed.

Lemma logistic_cdf_range (x : R) : 0 <= cdf logistic x <= 1.
Proof.
  simpl. pose proof (exp_pos (- x)) as He.
  assert (H1 : 0 < / (1 + exp (- x))) by (apply Rinv_0_lt_compat; lra).
  split; [lra|].
  rewrite <- Rinv_1. apply Rinv_le_contravar; lra.
Qed.

Lemma logistic_cdf_symmetric (x : R) :
  cdf logistic (- x) = 1 - cdf logistic x.
Proof.
  simpl. rewrite Ropp_involutive.
  pose proof (exp_pos x) as Hx. pose proof (exp_pos (- x)) as Hn.
  assert (Hprod : exp x * exp (- x) = 1).
  { rewrite <- exp_plus. replace (x + - x) with 0 by ring. apply exp_0. }
  apply (Rmult_eq_reg_r ((1 + exp x) * (1 + exp (- x)))); [|nra].
  field_simplify; [|lra|lra]. nra.
Qed.

(** *** The float range *)

Lemma float_max_bounds : 2 ^ 1023 <= float_max < 2 ^ 1024.
Proof.
  unfold float_max. rewrite <- (tech_pow_Rmult 2 1023).
  assert (Hb : 0 < 2 ^ 1023) by (apply pow_lt; lra).
  assert (Ha : 1 <= 2 ^ 52) by (apply pow_R1_Rle; lra).
  set (a := 2 ^ 52) in *. set (b := 2 ^ 1023) in *. clearbody a b.
  assert (Hinv : 0 < / a) by (apply Rinv_0_lt_compat; lra).
  assert (Hinv1 : / a <= 1).
  { rewrite <- Rinv_1. apply Rinv_le_contravar; lra. }
  split; nra.
Qed.

Lemma float_max_large : 1048576 <= float_max.
Proof.
  apply Rle_trans with (2 ^ 1023); [|apply float_max_bounds].
  apply Rle_trans with (2 ^ 20).
  - apply Req_le. ring.
  - apply Rle_pow; [lra | lia].
Qed.

Lemma in_range_small (x : R) : Rabs x <= 1048576 -> in_range x.
Proof.
  intros H. unfold in_range. pose proof float_max_large. lra.
Qed.

Lemma to_float64_in_range (x : R) : in_range x -> to_float64 x = Finite x.
Proof.
  unfold in_range, to_float64. intros H.
  destruct (Rle_dec (Rabs x) float_max); [reflexivity | contradiction].
Qed.

Lemma to_float64_overflow (x : R) : ~ in_range x -> to_float64 x = NonFinite.
Proof.
  unfold in_range, to_float64. intros H.
  destruct (Rle_dec (Rabs x) float_max); [contradiction | reflexivity].
Qed.

Lemma exp_ok_dec (x : R) : {exp_ok x} + {~ exp_ok x}.
Proof.
  unfold exp_ok.
  destruct (Rle_dec (exp x) float_max); [left; left; assumption|].
  destruct (Rlt_dec float_max x); [left; right; assumption|].
  right. intros [H | H]; contradiction.
Qed.

Lemma math_exp_ok (x : R) : exp_ok x -> math_exp x = Normal (exp x).
Proof.
  unfold exp_ok, math_exp. intros H.
  destruct (Rlt_dec float_max (exp x)); [|reflexivity].
  destruct (Rle_dec x float_max); [lra | reflexivity].
Qed.

Lemma math_exp_overflow (x : R) :
  ~ exp_ok x -> math_exp x = Raised (OverflowError "math range error").
Proof.
  unfold exp_ok, math_exp. intros H.
  destruct (Rlt_dec float_max (exp x)) as [|Hle];
    [|contradiction H; left; lra].
  destruct (Rle_dec x float_max) as [|Hgt]; [reflexivity|].
  contradiction H. right. lra.
Qed.

Lemma exp_ok_nonpos (x : R) : x <= 0 -> exp_ok x.
Proof.
  intros Hx. left.
  assert (H1 : exp x <= 1).
  { rewrite <- exp_0. destruct Hx as [Hlt | ->];
      [apply Rlt_le, exp_increasing, Hlt | apply Rle_refl]. }
  pose proof float_max_large. lra.
Qed.

Lemma exp_INR_ge_pow2 (n : nat) : 2 ^ n <= exp (INR n).
Proof.
  induction n as [|n IH].
  - simpl. rewrite exp_0. apply Rle_refl.
  - rewrite S_INR, exp_plus, <- tech_pow_Rmult.
    assert (H2 : 2 < exp 1) by (pose proof (exp_ineq1 1); lra).
    assert (Hp : 0 < 2 ^ n) by (apply pow_lt; lra).
    set (p := 2 ^ n) in *. set (e := exp (INR n)) in *. clearbody p e.
    nra.
Qed.

(** [math.exp(1024)] overflows. *)
Lemma exp_1024_overflows : ~ exp_ok 1024.
Proof.
  assert (H : 2 ^ 1024 <= exp 1024).
  { assert (E : INR 1024 = 1024) by (rewrite INR_IZR_INZ; reflexivity).
    rewrite <- E. apply exp_INR_ge_pow2. }
  pose proof float_max_bounds as [_ Hlt].
  pose proof float_max_large as Hlarge.
  unfold exp_ok.
  set (b := 2 ^ 1024) in *. clearbody b.
  intros [Hle | Hgt]; lra.
Qed.

Lemma pow2_ok_dec (kind : float_kind) (x : R) :
  {pow2_ok kind x} + {~ pow2_ok kind x}.
Proof.
  unfold pow2_ok. destruct kind.
  - destruct (Rle_dec (x ^ 2) float_max); [left; right; assumption|].
    right. intros [H | H]; [discriminate | contradiction].
  - left. left. reflexivity.
Qed.

Lemma float_pow2_ok (kind : float_kind) (x : R) :
  pow2_ok kind x -> float_pow2 kind x = Normal (x ^ 2).
Proof.
  unfold pow2_ok, float_pow2. intros H. destruct kind; [|reflexivity].
  destruct (Rlt_dec float_max (x ^ 2)); [|reflexivity].
  destruct H as [H | H]; [discriminate | lra].
Qed.

Lemma float_pow2_overflow (kind : float_kind) (x : R) :
  ~ pow2_ok kind x ->
  float_pow2 kind x
  = Raised (OverflowError "(34, 'Numerical result out of range')").
Proof.
  unfold pow2_ok, float_pow2. intros H. destruct kind.
  - destruct (Rlt_dec float_max (x ^ 2)); [reflexivity|].
    contradiction H. right. lra.
  - contradiction H. left. reflexivity.
Qed.

Lemma no_overflow_dec (kind : float_kind) (r T q vol : R) :
  {no_overflow kind r T q vol} + {~ no_overflow kind r T q vol}.
Proof.
  unfold no_overflow.
  destruct (pow2_ok_dec kind (Rmax vol vol_floor)); [|right; tauto].
  destruct (exp_ok_dec (- (q * Rmax T T_floor))); [|right; tauto].
  destruct (exp_ok_dec (- (r * Rmax T T_floor))); [|right; tauto].
  left. tauto.
Qed.

(** Non-negative rates and a volatility of at most 1000 cannot overflow. *)
Lemma no_overflow_usual (kind : float_kind) (r T q vol : R) :
  0 <= r -> 0 <= q -> vol <= 1000 -> no_overflow kind r T q vol.
Proof.
  intros Hr Hq Hvol.
  assert (HT : 0 < Rmax T T_floor).
  { apply Rlt_le_trans with T_floor; [unfold T_floor; lra | apply Rmax_r]. }
  unfold no_overflow. split; [|split].
  - right.
    assert (Hs : 0 < Rmax vol vol_floor <= 1000).
    { split.
      - apply Rlt_le_trans with vol_floor;
          [unfold vol_floor; lra | apply Rmax_r].
      - apply Rmax_lub; [exact Hvol | unfold vol_floor; lra]. }
    set (sigma := Rmax vol vol_floor) in *. clearbody sigma.
    pose proof float_max_large.
    replace (sigma ^ 2) with (sigma * sigma) by ring. nra.
  - apply exp_ok_nonpos. nra.
  - apply exp_ok_nonpos. nra.
Qed.

Section Pricing.

Variable norm : rv_continuous.
Variable vol_kind : float_kind.

Import OptionPricingDash.

(** Past the validation gate the function is the [try] block at the floored
    arguments, with the handler around it. *)
Lemma black_scholes_valid (S K r T q vol : R) (option_type : string) :
  0 < S -> 0 < K -> 0 < T -> 0 < vol ->
  black_scholes norm vol_kind S K r T q vol option_type =
  match black_scholes_try norm vol_kind S K r (Rmax T T_floor) q
          (Rmax vol vol_floor) option_type with
  | Normal result => (Some result, [])
  | Raised e =>
      (None, [("Error in Black-Scholes calculation: " ++ str_exn e)%string])
  end.
Proof.
  intros HS HK HT Hvol. unfold black_scholes.
  destruct (Rle_dec S 0); [lra|].
  destruct (Rle_dec K 0); [lra|].
  destruct (Rle_dec T 0); [lra|].
  destruct (Rle_dec vol 0); [lra|].
  rewrite !py_max_Rmax. reflexivity.
Qed.

Lemma black_scholes_rejects (S K r T q vol : R) (option_type : string) :
  S <= 0 \/ K <= 0 \/ T <= 0 \/ vol <= 0 ->
  black_scholes norm vol_kind S K r T q vol option_type = (None, []).
Proof.
  intros H. unfold black_scholes.
  destruct (Rle_dec S 0); [reflexivity|].
  destruct (Rle_dec K 0); [reflexivity|].
  destruct (Rle_dec T 0); [reflexivity|].
  destruct (Rle_dec vol 0); [reflexivity|].
  lra.
Qed.

Lemma d1_code_spec (S K r q sigma T : R) :
  (ln (S / K) + (r - q + 0.5 * sigma ^ 2) * T) / (sigma * sqrt T)
  = d1_spec S K r q sigma T.
Proof. unfold d1_spec. simpl. rewrite Rmult_1_r. reflexivity. Qed.

Lemma exp_neg_mul (a b : R) : exp (- a * b) = exp (- (a * b)).
Proof. f_equal. ring. Qed.

Lemma math_exp_neg_mul (a b : R) : math_exp (- a * b) = math_exp (- (a * b)).
Proof. f_equal. ring. Qed.

(** The [try] block on the two sides when nothing overflows, in the
    specification's terms. *)
Lemma black_scholes_try_call (S K r T q vol : R) :
  pow2_ok vol_kind vol -> exp_ok (- (q * T)) -> exp_ok (- (r * T)) ->
  black_scholes_try norm vol_kind S K r T q vol "call" =
  let d1 := d1_spec S K r q vol T in
  let d2 := d2_spec S K r q vol T in
  Normal
    [("Call Price",
      S * exp (- (q * T)) * cdf norm d1 - K * exp (- (r * T)) * cdf norm d2);
     ("Call Delta", cdf norm d1 * exp (- (q * T)));
     ("Call Gamma", pdf norm d1 * exp (- (q * T)) / (S * vol * sqrt T));
     ("Call Vega", S * pdf norm d1 * sqrt T * exp (- (q * T)) / 100);
     ("Call Theta",
      ((- S * pdf norm d1 * vol * exp (- (q * T))) / (2 * sqrt T)
       - r * K * exp (- (r * T)) * cdf norm d2
       + q * S * exp (- (q * T)) * cdf norm d1) / 365);
     ("Call Rho", K * T * exp (- (r * T)) * cdf norm d2 / 100)]%string.
Proof.
  intros Hpow Hq Hr. unfold black_scholes_try, d2_spec.
  rewrite (float_pow2_ok _ _ Hpow), !math_exp_neg_mul.
  rewrite (math_exp_ok _ Hq), (math_exp_ok _ Hr).
  change (String.eqb "call" "call") with true. cbv [bind]. cbv iota zeta.
  rewrite !d1_code_spec. reflexivity.
Qed.

Lemma black_scholes_try_put (S K r T q vol : R) :
  pow2_ok vol_kind vol -> exp_ok (- (q * T)) -> exp_ok (- (r * T)) ->
  black_scholes_try norm vol_kind S K r T q vol "put" =
  let d1 := d1_spec S K r q vol T in
  let d2 := d2_spec S K r q vol T in
  Normal
    [("Put Price",
      K * exp (- (r * T)) * cdf norm (- d2)
      - S * exp (- (q * T)) * cdf norm (- d1));
     ("Put Delta", exp (- (q * T)) * (cdf norm d1 - 1));
     ("Put Gamma", pdf norm d1 * exp (- (q * T)) / (S * vol * sqrt T));
     ("Put Vega", S * pdf norm d1 * sqrt T * exp (- (q * T)) / 100);
     ("Put Theta",
      ((- S * pdf norm d1 * vol * exp (- (q * T))) / (2 * sqrt T)
       + r * K * exp (- (r * T)) * cdf norm (- d2)
       - q * S * exp (- (q * T)) * cdf norm (- d1)) / 365);
     ("Put Rho", - K * T * exp (- (r * T)) * cdf norm (- d2) / 100)]%string.
Proof.
  intros Hpow Hq Hr. unfold black_scholes_try, d2_spec.
  rewrite (float_pow2_ok _ _ Hpow), !math_exp_neg_mul.
  rewrite (math_exp_ok _ Hq), (math_exp_ok _ Hr).
  change (String.eqb "put" "call") with false.
  change (String.eqb "put" "put") with true. cbv [bind]. cbv iota zeta.
  rewrite !d1_code_spec. reflexivity.
Qed.

Lemma black_scholes_try_other (S K r T q vol : R) (option_type : string) :
  pow2_ok vol_kind vol -> exp_ok (- (q * T)) ->
  option_type <> "call"%string -> option_type <> "put"%string ->
  black_scholes_try norm vol_kind S K r T q vol option_type =
  Raised (ValueError "option_type must be either 'call' or 'put'").
Proof.
  intros Hpow Hq Hc Hp. unfold black_scholes_try.
  rewrite (float_pow2_ok _ _ Hpow), !math_exp_neg_mul.
  rewrite (math_exp_ok _ Hq).
  apply String.eqb_neq in Hc. apply String.eqb_neq in Hp.
  cbv [bind]. rewrite Hc, Hp. reflexivity.
Qed.

(** The [try] block when something overflows: the first expression that
    overflows raises, whatever the side. *)
Lemma black_scholes_try_pow_overflow (S K r T q vol : R)
    (option_type : string) :
  ~ pow2_ok vol_kind vol ->
  black_scholes_try norm vol_kind S K r T q vol option_type =
  Raised (OverflowError "(34, 'Numerical result out of range')").
Proof.
  intros Hpow. unfold black_scholes_try.
  rewrite (float_pow2_overflow _ _ Hpow). reflexivity.
Qed.

Lemma black_scholes_try_exp_q_overflow (S K r T q vol : R)
    (option_type : string) :
  pow2_ok vol_kind vol -> ~ exp_ok (- (q * T)) ->
  black_scholes_try norm vol_kind S K r T q vol option_type =
  Raised (OverflowError "math range error").
Proof.
  intros Hpow Hq. unfold black_scholes_try.
  rewrite (float_pow2_ok _ _ Hpow), !math_exp_neg_mul.
  rewrite (math_exp_overflow _ Hq). reflexivity.
Qed.

Lemma black_scholes_try_exp_r_overflow (S K r T q vol : R)
    (option_type : string) :
  option_type = "call"%string \/ option_type = "put"%string ->
  pow2_ok vol_kind vol -> exp_ok (- (q * T)) -> ~ exp_ok (- (r * T)) ->
  black_scholes_try norm vol_kind S K r T q vol option_type =
  Raised (OverflowError "math range error").
Proof.
  intros Hside Hpow Hq Hr. unfold black_scholes_try.
  rewrite (float_pow2_ok _ _ Hpow), !math_exp_neg_mul.
  rewrite (math_exp_ok _ Hq), (math_exp_overflow _ Hr).
  destruct Hside as [-> | ->]; reflexivity.
Qed.

(** On a side, an overflow inside the [try] block makes the function
    return [None] with one printed line. *)
Lemma black_scholes_overflow (S K r T q vol : R) (option_type : string) :
  option_type = "call"%string \/ option_type = "put"%string ->
  0 < S -> 0 < K -> 0 < T -> 0 < vol ->
  ~ no_overflow vol_kind r T q vol ->
  exists msg,
    black_scholes norm vol_kind S K r T q vol option_type =
    (None, [("Error in Black-Scholes calculation: " ++ msg)%string]).
Proof.
  intros Hside HS HK HT Hvol Hover.
  rewrite (black_scholes_valid S K r T q vol option_type HS HK HT Hvol).
  unfold no_overflow in Hover.
  destruct (pow2_ok_dec vol_kind (Rmax vol vol_floor)) as [Hpow | Hpow];
    [|rewrite (black_scholes_try_pow_overflow _ _ _ _ _ _ _ Hpow);
      eexists; reflexivity].
  destruct (exp_ok_dec (- (q * Rmax T T_floor))) as [Hq | Hq];
    [|rewrite (black_scholes_try_exp_q_overflow _ _ _ _ _ _ _ Hpow Hq);
      eexists; reflexivity].
  destruct (exp_ok_dec (- (r * Rmax T T_floor))) as [Hr | Hr]; [tauto|].
  rewrite (black_scholes_try_exp_r_overflow _ _ _ _ _ _ _ Hside Hpow Hq Hr).
  eexists. reflexivity.
Qed.

(** The two sides of a valid input at which nothing overflows. *)
Lemma black_scholes_call (S K r T q vol : R) :
  0 < S -> 0 < K -> 0 < T -> 0 < vol ->
  no_overflow vol_kind r T q vol ->
  black_scholes norm vol_kind S K r T q vol "call" =
  let T' := Rmax T T_floor in
  let sigma := Rmax vol vol_floor in
  let d1 := d1_spec S K r q sigma T' in
  let d2 := d2_spec S K r q sigma T' in
  (Some
     [("Call Price",
       S * exp (- (q * T')) * cdf norm d1
       - K * exp (- (r * T')) * cdf norm d2);
      ("Call Delta", cdf norm d1 * exp (- (q * T')));
      ("Call Gamma", pdf norm d1 * exp (- (q * T')) / (S * sigma * sqrt T'));
      ("Call Vega", S * pdf norm d1 * sqrt T' * exp (- (q * T')) / 100);
      ("Call Theta",
       ((- S * pdf norm d1 * sigma * exp (- (q * T'))) / (2 * sqrt T')
        - r * K * exp (- (r * T')) * cdf norm d2
        + q * S * exp (- (q * T')) * cdf norm d1) / 365);
      ("Call Rho", K * T' * exp (- (r * T')) * cdf norm d2 / 100)]%string,
   []).
Proof.
  intros HS HK HT Hvol (Hpow & Hq & Hr).
  rewrite (black_scholes_valid S K r T q vol "call" HS HK HT Hvol).
  rewrite (black_scholes_try_call _ _ _ _ _ _ Hpow Hq Hr).
  reflexivity.
Qed.

Lemma black_scholes_put (S K r T q vol : R) :
  0 < S -> 0 < K -> 0 < T -> 0 < vol ->
  no_overflow vol_kind r T q vol ->
  black_scholes norm vol_kind S K r T q vol "put" =
  let T' := Rmax T T_floor in
  let sigma := Rmax vol vol_floor in
  let d1 := d1_spec S K r q sigma T' in
  let d2 := d2_spec S K r q sigma T' in
  (Some
     [("Put Price",
       K * exp (- (r * T')) * cdf norm (- d2)
       - S * exp (- (q * T')) * cdf norm (- d1));
      ("Put Delta", exp (- (q * T')) * (cdf norm d1 - 1));
      ("Put Gamma", pdf norm d1 * exp (- (q * T')) / (S * sigma * sqrt T'));
      ("Put Vega", S * pdf norm d1 * sqrt T' * exp (- (q * T')) / 100);
      ("Put Theta",
       ((- S * pdf norm d1 * sigma * exp (- (q * T'))) / (2 * sqrt T')
        + r * K * exp (- (r * T')) * cdf norm (- d2)
        - q * S * exp (- (q * T')) * cdf norm (- d1)) / 365);
      ("Put Rho", - K * T' * exp (- (r * T')) * cdf norm (- d2) / 100)]%string,
   []).
Proof.
  intros HS HK HT Hvol (Hpow & Hq & Hr).
  rewrite (black_scholes_valid S K r T q vol "put" HS HK HT Hvol).
  rewrite (black_scholes_try_put _ _ _ _ _ _ Hpow Hq Hr).
  reflexivity.
Qed.


(** C2. When spot, strike, time to expiry or volatility (as passed, before
    any floor) is zero or negative, the function returns [None] on the call
    side and on the put side; nothing is printed, so the [try] block with
    its handler was not entered, and nothing is raised. *)
Theorem invalid_input_rejected (S K r T q vol : R) :
  S <= 0 \/ K <= 0 \/ T <= 0 \/ vol <= 0 ->
  black_scholes norm vol_kind S K r T q vol "call" = (None, []) /\
  black_scholes norm vol_kind S K r T q vol "put" = (None, []).
Proof.
  intros H. split; apply black_scholes_rejects; exact H.
Qed.

(** C10. Past the validation gate, an [option_type] that is neither
    'call' nor 'put' makes the function return [None] and nothing escapes
    it.  When the lines before the test of the side do not overflow, the
    [ValueError] is raised inside the [try] block and caught by the
    function's own handler, which prints its message. *)
Theorem unknown_option_type_returns_none
    (S K r T q vol : R) (option_type : string) :
  0 < S -> 0 < K -> 0 < T -> 0 < vol ->
  option_type <> "call"%string -> option_type <> "put"%string ->
  fst (black_scholes norm vol_kind S K r T q vol option_type) = None /\
  (pow2_ok vol_kind (Rmax vol vol_floor) ->
   exp_ok (- (q * Rmax T T_floor)) ->
   black_scholes_try norm vol_kind S K r (Rmax T T_floor) q
     (Rmax vol vol_floor) option_type
   = Raised (ValueError "option_type must be either 'call' or 'put'") /\
   black_scholes norm vol_kind S K r T q vol option_type =
   (None,
    ["Error in Black-Scholes calculation: option_type must be either 'call' or 'put'"%string])).
Proof.
  intros HS HK HT Hvol Hc Hp.
  rewrite (black_scholes_valid S K r T q vol option_type HS HK HT Hvol).
  split.
  - destruct (pow2_ok_dec vol_kind (Rmax vol vol_floor)) as [Hpow | Hpow];
      [|rewrite (black_scholes_try_pow_overflow _ _ _ _ _ _ _ Hpow);
        reflexivity].
    destruct (exp_ok_dec (- (q * Rmax T T_floor))) as [Hq | Hq];
      [|rewrite (black_scholes_try_exp_q_overflow _ _ _ _ _ _ _ Hpow Hq);
        reflexivity].
    rewrite (black_scholes_try_other _ _ _ _ _ _ _ Hpow Hq Hc Hp).
    reflexivity.
  - intros Hpow Hq.
    rewrite (black_scholes_try_other _ _ _ _ _ _ _ Hpow Hq Hc Hp).
    split; reflexivity.
Qed.

(** C4. Put-call parity: for positive spot, strike, time to expiry and
    volatility at which nothing overflows, and a distribution function
    with Phi(-x) = 1 - Phi(x), the call price minus the put price returned
    on the same inputs is S e^(-qT') - K e^(-rT') at the floored time T'.
    (Floats are reals here, so the equation is exact.) *)
Theorem put_call_parity (S K r T q vol : R) :
  (forall x, cdf norm (- x) = 1 - cdf norm x) ->
  0 < S -> 0 < K -> 0 < T -> 0 < vol ->
  no_overflow vol_kind r T q vol ->
  let T' := Rmax T T_floor in
  exists call put callPrice putPrice,
    black_scholes norm vol_kind S K r T q vol "call" = (Some call, []) /\
    black_scholes norm vol_kind S K r T q vol "put" = (Some put, []) /\
    dict_get call "Call Price" = Some callPrice /\
    dict_get put "Put Price" = Some putPrice /\
    callPrice - putPrice = S * exp (- (q * T')) - K * exp (- (r * T')).
Proof.
  intros Hsym HS HK HT Hvol Hno T'.
  rewrite (black_scholes_call S K r T q vol HS HK HT Hvol Hno).
  rewrite (black_scholes_put S K r T q vol HS HK HT Hvol Hno). cbv zeta.
  do 4 eexists.
  split; [reflexivity|]. split; [reflexivity|].
  split; [reflexivity|]. split; [reflexivity|].
  rewrite !Hsym. fold T'. ring.
Qed.

(** C5 (as amended). The gate runs before the floors.  With positive spot,
    strike and volatility, a time to expiry in (0, 1/365] gives exactly the
    result of T = 1/365; with positive spot, strike and time, a volatility
    in (0, 0.001] gives exactly the result of vol = 0.001; and on the call
    and put sides the function returns [None] exactly when spot, strike,
    time to expiry or volatility is zero or negative, or something
    overflows inside the [try] block. *)
Theorem floors_after_gate (S K r T q vol : R) :
  (0 < S -> 0 < K -> 0 < vol -> 0 < T <= T_floor ->
   forall option_type,
     black_scholes norm vol_kind S K r T q vol option_type =
     black_scholes norm vol_kind S K r T_floor q vol option_type) /\
  (0 < S -> 0 < K -> 0 < T -> 0 < vol <= vol_floor ->
   forall option_type,
     black_scholes norm vol_kind S K r T q vol option_type =
     black_scholes norm vol_kind S K r T q vol_floor option_type) /\
  (forall option_type,
     option_type = "call"%string \/ option_type = "put"%string ->
     (fst (black_scholes norm vol_kind S K r T q vol option_type) = None <->
      (S <= 0 \/ K <= 0 \/ T <= 0 \/ vol <= 0) \/
      ~ no_overflow vol_kind r T q vol)).
Proof.
  assert (HTf : 0 < T_floor) by (unfold T_floor; lra).
  assert (Hvf : 0 < vol_floor) by (unfold vol_floor; lra).
  split; [|split].
  - intros HS HK Hvol [HT HTle] option_type.
    rewrite (black_scholes_valid S K r T q vol option_type HS HK HT Hvol).
    rewrite (black_scholes_valid S K r T_floor q vol option_type HS HK HTf Hvol).
    rewrite (Rmax_right T T_floor HTle), (Rmax_left T_floor T_floor (Rle_refl _)).
    reflexivity.
  - intros HS HK HT [Hvol Hvle] option_type.
    rewrite (black_scholes_valid S K r T q vol option_type HS HK HT Hvol).
    rewrite (black_scholes_valid S K r T q vol_floor option_type HS HK HT Hvf).
    rewrite (Rmax_right vol vol_floor Hvle),
            (Rmax_left vol_floor vol_floor (Rle_refl _)).
    reflexivity.
  - intros option_type Hside. split.
    + intros Hnone.
      destruct (Rle_dec S 0) as [|HS]; [tauto|].
      destruct (Rle_dec K 0) as [|HK]; [tauto|].
      destruct (Rle_dec T 0) as [|HT]; [tauto|].
      destruct (Rle_dec vol 0) as [|Hvol]; [tauto|].
      apply Rnot_le_lt in HS, HK, HT, Hvol.
      right. intros Hno.
      destruct Hside as [-> | ->].
      * rewrite (black_scholes_call S K r T q vol HS HK HT Hvol Hno)
          in Hnone. discriminate Hnone.
      * rewrite (black_scholes_put S K r T q vol HS HK HT Hvol Hno)
          in Hnone. discriminate Hnone.
    + intros [Hbad | Hover].
      * rewrite (black_scholes_rejects _ _ _ _ _ _ _ Hbad). reflexivity.
      * destruct (Rle_dec S 0) as [|HS];
          [rewrite black_scholes_rejects by tauto; reflexivity|].
        destruct (Rle_dec K 0) as [|HK];
          [rewrite black_scholes_rejects by tauto; reflexivity|].
        destruct (Rle_dec T 0) as [|HT];
          [rewrite black_scholes_rejects by tauto; reflexivity|].
        destruct (Rle_dec vol 0) as [|Hvol];
          [rewrite black_scholes_rejects by tauto; reflexivity|].
        apply Rnot_le_lt in HS, HK, HT, Hvol.
        destruct (black_scholes_overflow S K r T q vol option_type
                    Hside HS HK HT Hvol Hover) as (msg & ->).
        reflexivity.
Qed.

(** C9. Delta is bounded: for positive spot, strike, time to expiry and
    volatility at which nothing overflows, and a distribution function
    with values in [0, 1], the call delta lies in [0, e^(-qT')] and the put
    delta in [-e^(-qT'), 0], at the floored time T'. *)
Theorem delta_bounds (S K r T q vol : R) :
  (forall x, 0 <= cdf norm x <= 1) ->
  0 < S -> 0 < K -> 0 < T -> 0 < vol ->
  no_overflow vol_kind r T q vol ->
  let T' := Rmax T T_floor in
  exists call put callDelta putDelta,
    black_scholes norm vol_kind S K r T q vol "call" = (Some call, []) /\
    black_scholes norm vol_kind S K r T q vol "put" = (Some put, []) /\
    dict_get call "Call Delta" = Some callDelta /\
    dict_get put "Put Delta" = Some putDelta /\
    0 <= callDelta <= exp (- (q * T')) /\
    - exp (- (q * T')) <= putDelta <= 0.
Proof.
  intros Hrange HS HK HT Hvol Hno T'.
  rewrite (black_scholes_call S K r T q vol HS HK HT Hvol Hno).
  rewrite (black_scholes_put S K r T q vol HS HK HT Hvol Hno). cbv zeta.
  do 4 eexists.
  split; [reflexivity|]. split; [reflexivity|].
  split; [reflexivity|]. split; [reflexivity|].
  fold T'.
  pose proof (exp_pos (- (q * T'))) as He.
  pose proof (Hrange (d1_spec S K r q (Rmax vol vol_floor) T')) as [H0 H1].
  split; split; nra.
Qed.

End Pricing.

(** ** The scripts: selection, expiry, mispricing *)

Section Selection.

Context {A : Type} (key : A -> R).

(** The loop keeps the first item of smallest key among the running best
    and the items still to come. *)
Lemma min_loop_first_min (it : list A) :
  forall minitem : A,
    let k := min_loop key minitem (key minitem) it in
    (forall x, In x (minitem :: it) -> key k <= key x) /\
    exists before after,
      minitem :: it = before ++ k :: after /\
      forall x, In x before -> key k < key x.
Proof.
  induction it as [|item rest IH]; intros minitem; cbn [min_loop].
  - split.
    + intros x [<- | []]. apply Rle_refl.
    + exists [], []. split; [reflexivity|]. intros x [].
  - destruct (Rlt_dec (key item) (key minitem)) as [Hlt | Hge].
    + destruct (IH item) as [Hmin (before & after & Heq & Hbefore)].
      set (k := min_loop key item (key item) rest) in *.
      assert (Hk : key k <= key item) by (apply Hmin; left; reflexivity).
      split.
      * intros x [<- | Hin]; [lra | apply Hmin, Hin].
      * exists (minitem :: before), after. split.
        -- cbn. rewrite Heq. reflexivity.
        -- intros x [<- | Hin]; [lra | apply Hbefore, Hin].
    + destruct (IH minitem) as [Hmin (before & after & Heq & Hbefore)].
      set (k := min_loop key minitem (key minitem) rest) in *.
      assert (Hk : key k <= key minitem) by (apply Hmin; left; reflexivity).
      split.
      * intros x [<- | [<- | Hin]]; [exact Hk | lra |].
        apply Hmin. right. exact Hin.
      * destruct before as [|b before'].
        -- cbn in Heq. injection Heq as Hkm Hrest.
           exists [], (item :: rest). split.
           ++ cbn. rewrite <- Hkm. reflexivity.
           ++ intros x [].
        -- cbn in Heq. injection Heq as Hb Hrest. subst b.
           exists (minitem :: item :: before'), after. split.
           ++ cbn. rewrite Hrest. reflexivity.
           ++ assert (Hm : key k < key minitem)
                by (apply Hbefore; left; reflexivity).
              intros x [<- | [<- | Hin]]; [exact Hm | lra |].
              apply Hbefore. right. exact Hin.
Qed.

(** On a non-empty list [min] returns, and returns the first item of
    smallest key. *)
Lemma py_min_first_min (it : list A) :
  it <> [] ->
  exists k,
    py_min key it = Normal k /\
    (forall x, In x it -> key k <= key x) /\
    exists before after,
      it = before ++ k :: after /\
      forall x, In x before -> key k < key x.
Proof.
  destruct it as [|item rest]; [intros H; contradiction H; reflexivity|].
  intros _. exists (min_loop key item (key item) rest).
  split; [reflexivity|]. apply min_loop_first_min.
Qed.

End Selection.

(** Decides the comparisons of a selection on numerals. *)
Ltac eval_Rabs :=
  repeat match goal with
  | |- context [Rabs ?x] =>
      first
        [ replace (Rabs x) with x by (symmetry; apply Rabs_right; lra)
        | replace (Rabs x) with (- x) by (symmetry; apply Rabs_left; lra) ]
  end.

Ltac run_selection :=
  cbv [live_data.atm_strike atm_option_analysis.atm_strike py_min min_loop];
  eval_Rabs;
  repeat match goal with
  | |- context [Rlt_dec ?a ?b] => destruct (Rlt_dec a b); try lra
  end;
  try reflexivity.

(** C7. On a non-empty strike sequence the selection of both scripts
    returns a strike of the sequence at minimal distance from the spot
    price, and the first such strike in the sequence's order; so
    selectATM([100,105,95], 101) = 100 and selectATM([100,102], 101) = 100. *)
Theorem atm_strike_stable_argmin :
  (forall (strikes : list R) (spot_price : R),
     strikes <> [] ->
     exists k,
       live_data.atm_strike strikes spot_price = Normal k /\
       atm_option_analysis.atm_strike strikes spot_price = Normal k /\
       In k strikes /\
       stable_argmin strikes spot_price k) /\
  live_data.atm_strike [100; 105; 95] 101 = Normal 100 /\
  atm_option_analysis.atm_strike [100; 105; 95] 101 = Normal 100 /\
  live_data.atm_strike [100; 102] 101 = Normal 100 /\
  atm_option_analysis.atm_strike [100; 102] 101 = Normal 100.
Proof.
  split; [|repeat split; run_selection].
  intros strikes spot_price Hne.
  destruct (py_min_first_min (fun x => Rabs (x - spot_price)) strikes Hne)
    as (k & Hk & Hmin & before & after & Heq & Hbefore).
  exists k. split; [exact Hk|]. split; [exact Hk|]. split.
  - rewrite Heq. apply in_or_app. right. left. reflexivity.
  - split; [exact Hmin|]. exists before, after. split; assumption.
Qed.

(** C8 (as amended). On the empty strike sequence the selection of both
    scripts raises [ValueError], the error of the builtin [min]; it yields
    no value.  In both scripts the selection is reached only past the gate
    on empty tables, which reports that no option chain data is available
    and stops; past the gate the selection returns a strike. *)
Theorem atm_strike_empty_raises :
  (forall spot_price : R,
     live_data.atm_strike [] spot_price
     = Raised (ValueError "min() arg is an empty sequence") /\
     atm_option_analysis.atm_strike [] spot_price
     = Raised (ValueError "min() arg is an empty sequence")) /\
  (forall (calls puts : DataFrame) (spot_price : R),
     calls = [] \/ puts = [] ->
     live_data.find_atm calls puts spot_price
     = (Normal None,
        ["Error: No option chain data available for selected expiry"%string]) /\
     atm_option_analysis.find_atm calls puts spot_price
     = (Normal None,
        ["No option chain data available for selected expiry"%string])) /\
  (forall (calls puts : DataFrame) (spot_price : R),
     calls <> [] -> puts <> [] ->
     exists k,
       live_data.find_atm calls puts spot_price = (Normal (Some k), []) /\
       atm_option_analysis.find_atm calls puts spot_price
       = (Normal (Some k), []) /\
       In k (strike_tolist calls)).
Proof.
  split; [|split].
  - intros spot_price. split; reflexivity.
  - intros calls puts spot_price [-> | ->].
    + split; reflexivity.
    + destruct calls; split; reflexivity.
  - intros [|c calls] [|p puts] spot_price Hc Hp; try contradiction.
    unfold live_data.find_atm, atm_option_analysis.find_atm.
    cbn [empty orb].
    assert (Hne : strike_tolist (c :: calls) <> []) by discriminate.
    destruct (py_min_first_min (fun x => Rabs (x - spot_price))
                (strike_tolist (c :: calls)) Hne)
      as (k & Hk & _ & before & after & Heq & _).
    exists k.
    unfold live_data.atm_strike, atm_option_analysis.atm_strike.
    rewrite Hk. split; [reflexivity|]. split; [reflexivity|].
    rewrite Heq. apply in_or_app. right. left. reflexivity.
Qed.

(** C8, the claim as written fails: on the empty sequence the selection
    returns no value at all, an exception leaves it. *)
Lemma atm_strike_empty_no_error_value :
  live_data.atm_strike [] 101
  = Raised (ValueError "min() arg is an empty sequence") /\
  atm_option_analysis.atm_strike [] 101
  = Raised (ValueError "min() arg is an empty sequence") /\
  (forall v, live_data.atm_strike [] 101 <> Normal v) /\
  (forall v, atm_option_analysis.atm_strike [] 101 <> Normal v).
Proof.
  repeat split; try reflexivity; intros v; discriminate.
Qed.

(** C6. Expiry normalisation in both scripts: a whole-day difference of
    zero or less gives exactly 1/365 and the warning; a positive one gives
    days / 365 and no warning; ten days give 10/365. *)
Theorem expiry_normalization (days_to_expiry : Z) :
  ((days_to_expiry <= 0)%Z ->
   live_data.T days_to_expiry
   = (1 / 365,
      ["⚠️ Warning: Option is expiring today or has expired. Using minimum time value."%string]) /\
   atm_option_analysis.T days_to_expiry
   = (1 / 365,
      ["⚠️ Option is expiring today or has expired. Using minimum time value."%string])) /\
  ((0 < days_to_expiry)%Z ->
   live_data.T days_to_expiry = (IZR days_to_expiry / 365, []) /\
   atm_option_analysis.T days_to_expiry = (IZR days_to_expiry / 365, [])) /\
  live_data.T 10 = (10 / 365, []) /\
  atm_option_analysis.T 10 = (10 / 365, []).
Proof.
  unfold live_data.T, atm_option_analysis.T.
  split; [|split; [|split; reflexivity]].
  - intros Hle. apply Z.leb_le in Hle. rewrite Hle. split; reflexivity.
  - intros Hlt. apply Z.leb_gt in Hlt. rewrite Hlt. split; reflexivity.
Qed.

Lemma mispricing_pct_nonzero (market_price model_price : R) :
  model_price <> 0 ->
  in_range (market_price - model_price) ->
  in_range ((market_price - model_price) / model_price * 100) ->
  mispricing_pct market_price model_price
  = Finite ((market_price - model_price) / model_price * 100).
Proof.
  intros Hne Hsub Hpct. unfold mispricing_pct.
  rewrite (to_float64_in_range _ Hsub). cbn [truediv].
  destruct (Req_dec_T model_price 0); [contradiction|].
  assert (Hquot : in_range ((market_price - model_price) / model_price)).
  { unfold in_range in *. rewrite Rabs_mult in Hpct.
    rewrite (Rabs_right 100) in Hpct by lra.
    pose proof (Rabs_pos ((market_price - model_price) / model_price)).
    lra. }
  rewrite (to_float64_in_range _ Hquot). cbn [scale].
  apply to_float64_in_range, Hpct.
Qed.

Lemma mispricing_pct_zero (market_price : R) :
  mispricing_pct market_price 0 = NonFinite.
Proof.
  unfold mispricing_pct.
  destruct (to_float64 (market_price - 0)); cbn [truediv scale];
    [|reflexivity].
  destruct (Req_dec_T 0 0) as [_ | Hne]; [reflexivity|].
  contradiction Hne. reflexivity.
Qed.

Lemma mispricing_block_some (key : string) (market_price model_price : R)
    (bs : dict) :
  dict_get bs key = Some model_price ->
  mispricing_block key market_price (Some bs)
  = Normal (Some (mispricing_pct market_price model_price)).
Proof.
  intros Hget. unfold mispricing_block, getitem. rewrite Hget. reflexivity.
Qed.

(** C3 (as amended). Given the result of the pricing function with model
    price p under the price key, both scripts evaluate the percentage
    without raising: for p <> 0, with the difference and the percentage
    within the float range, it is (marketPrice - p) / p * 100, so a model
    price of 10 and a market price of 11 give 10 percent; p = 0 is not
    guarded, the division is evaluated all the same and numpy yields a
    non-finite value.  No percentage is computed only when the pricing
    function returned [None]. *)
Theorem mispricing_evaluation
    (market_price model_price : R) (bs : dict) :
  (dict_get bs "Call Price" = Some model_price ->
   (model_price <> 0 ->
    in_range (market_price - model_price) ->
    in_range ((market_price - model_price) / model_price * 100) ->
    live_data.mispricing_call market_price (Some bs)
    = Normal (Some (Finite ((market_price - model_price) / model_price * 100)))
    /\
    atm_option_analysis.mispricing_call market_price (Some bs)
    = Normal (Some (Finite ((market_price - model_price) / model_price * 100))))
   /\
   (model_price = 0 ->
    live_data.mispricing_call market_price (Some bs) = Normal (Some NonFinite)
    /\
    atm_option_analysis.mispricing_call market_price (Some bs)
    = Normal (Some NonFinite))
   /\
   (exists pct,
      live_data.mispricing_call market_price (Some bs) = Normal (Some pct) /\
      atm_option_analysis.mispricing_call market_price (Some bs)
      = Normal (Some pct))) /\
  live_data.mispricing_call 11 (Some [("Call Price"%string, 10)])
  = Normal (Some (Finite 10)) /\
  atm_option_analysis.mispricing_call 11 (Some [("Call Price"%string, 10)])
  = Normal (Some (Finite 10)) /\
  live_data.mispricing_call market_price None = Normal None /\
  atm_option_analysis.mispricing_call market_price None = Normal None.
Proof.
  unfold live_data.mispricing_call, atm_option_analysis.mispricing_call.
  assert (Hten : mispricing_block "Call Price" 11
                   (Some [("Call Price"%string, 10)])
                 = Normal (Some (Finite 10))).
  { rewrite (mispricing_block_some _ 11 10) by reflexivity.
    rewrite mispricing_pct_nonzero.
    - do 3 f_equal. lra.
    - lra.
    - apply in_range_small. replace (11 - 10) with 1 by ring.
      rewrite Rabs_R1. lra.
    - apply in_range_small. replace ((11 - 10) / 10 * 100) with 10 by lra.
      rewrite Rabs_right; lra. }
  split; [|repeat split; (exact Hten || reflexivity)].
  intros Hget. rewrite (mispricing_block_some _ _ _ _ Hget).
  split; [|split].
  - intros Hne Hsub Hpct.
    rewrite (mispricing_pct_nonzero _ _ Hne Hsub Hpct). split; reflexivity.
  - intros ->. rewrite mispricing_pct_zero. split; reflexivity.
  - eexists. split; reflexivity.
Qed.

(** C3, the claim as written fails: with a model price of exactly 0 and a
    market price of 5 the scripts do compute a percentage (the division is
    evaluated); the outcome is not the undefined one. *)
Lemma mispricing_zero_model_price_divides :
  live_data.mispricing_call 5 (Some [("Call Price"%string, 0)])
  = Normal (Some NonFinite) /\
  atm_option_analysis.mispricing_call 5 (Some [("Call Price"%string, 0)])
  = Normal (Some NonFinite) /\
  live_data.mispricing_call 5 (Some [("Call Price"%string, 0)])
  <> Normal None /\
  atm_option_analysis.mispricing_call 5 (Some [("Call Price"%string, 0)])
  <> Normal None.
Proof.
  unfold live_data.mispricing_call, atm_option_analysis.mispricing_call.
  rewrite (mispricing_block_some _ 5 0) by reflexivity.
  rewrite mispricing_pct_zero.
  repeat split; try reflexivity; discriminate.
Qed.

(** ** The theorems on concrete inputs *)

(** Nothing overflows in the scenario r = 0.04, q = 0.01, vol = 0.20. *)
Lemma scenario_no_overflow (kind : float_kind) (T : R) :
  no_overflow kind 0.04 T 0.01 0.2.
Proof. apply no_overflow_usual; lra. Qed.

(** With q = -1024 and T = 1 the discount factor e^(-qT) overflows, and
    the function returns [None] through its handler, whatever the side and
    the type of the volatility. *)
Lemma overflow_run (kind : float_kind) (option_type : string) :
  ~ no_overflow kind 0.04 1 (-1024) 0.2 /\
  OptionPricingDash.black_scholes logistic kind 100 100 0.04 1 (-1024) 0.2
    option_type
  = (None, ["Error in Black-Scholes calculation: math range error"%string]).
Proof.
  assert (HT : Rmax 1 T_floor = 1)
    by (apply Rmax_left; unfold T_floor; lra).
  assert (Hq : ~ exp_ok (- (-1024 * Rmax 1 T_floor))).
  { rewrite HT. replace (- (-1024 * 1)) with 1024 by ring.
    exact exp_1024_overflows. }
  split.
  - unfold no_overflow. tauto.
  - rewrite black_scholes_valid by lra.
    rewrite black_scholes_try_exp_q_overflow; [reflexivity | | exact Hq].
    apply (no_overflow_usual kind 0 1 0 0.2); lra.
Qed.



(** The rejection scenario S = -5. *)
Lemma invalid_input_rejected_witness :
  -5 <= 0 /\
  OptionPricingDash.black_scholes logistic py_float
    (-5) 100 0.04 0.25 0.01 0.2 "call"
  = (None, []) /\
  OptionPricingDash.black_scholes logistic py_float
    (-5) 100 0.04 0.25 0.01 0.2 "put"
  = (None, []).
Proof.
  assert (H : -5 <= 0) by lra.
  split; [exact H|].
  apply (invalid_input_rejected logistic py_float
           (-5) 100 0.04 0.25 0.01 0.2).
  left. exact H.
Defined.

(** The rejection scenario K = 0. *)
Lemma invalid_strike_rejected_example :
  OptionPricingDash.black_scholes logistic py_float
    100 0 0.04 0.25 0.01 0.2 "call"
  = (None, []) /\
  OptionPricingDash.black_scholes logistic py_float
    100 0 0.04 0.25 0.01 0.2 "put"
  = (None, []).
Proof.
  split; apply black_scholes_rejects; right; left; lra.
Qed.

Lemma unknown_option_type_returns_none_witness :
  0 < 100 /\ 0 < 0.25 /\ 0 < 0.2 /\
  "straddle"%string <> "call"%string /\ "straddle"%string <> "put"%string /\
  OptionPricingDash.black_scholes logistic py_float
    100 100 0.04 0.25 0.01 0.2 "straddle"
  = (None,
     ["Error in Black-Scholes calculation: option_type must be either 'call' or 'put'"%string]).
Proof.
  assert (Hc : "straddle"%string <> "call"%string) by discriminate.
  assert (Hp : "straddle"%string <> "put"%string) by discriminate.
  assert (H100 : 0 < 100) by lra.
  assert (HT : 0 < 0.25) by lra.
  assert (Hvol : 0 < 0.2) by lra.
  repeat (split; [assumption|]).
  destruct (scenario_no_overflow py_float 0.25) as (Hpow & Hq & _).
  exact (proj2 (proj2 (unknown_option_type_returns_none logistic py_float
                         100 100 0.04 0.25 0.01 0.2 "straddle"
                         H100 H100 HT Hvol Hc Hp) Hpow Hq)).
Defined.

Lemma put_call_parity_witness :
  (forall x, cdf logistic (- x) = 1 - cdf logistic x) /\
  0 < 100 /\ 0 < 0.25 /\ 0 < 0.2 /\
  no_overflow py_float 0.04 0.25 0.01 0.2 /\
  exists call put callPrice putPrice,
    OptionPricingDash.black_scholes logistic py_float
      100 100 0.04 0.25 0.01 0.2 "call"
    = (Some call, []) /\
    OptionPricingDash.black_scholes logistic py_float
      100 100 0.04 0.25 0.01 0.2 "put"
    = (Some put, []) /\
    dict_get call "Call Price" = Some callPrice /\
    dict_get put "Put Price" = Some putPrice /\
    callPrice - putPrice
    = 100 * exp (- (0.01 * Rmax 0.25 T_floor))
      - 100 * exp (- (0.04 * Rmax 0.25 T_floor)).
Proof.
  assert (H100 : 0 < 100) by lra.
  assert (HT : 0 < 0.25) by lra.
  assert (Hvol : 0 < 0.2) by lra.
  pose proof (scenario_no_overflow py_float 0.25) as Hno.
  split; [exact logistic_cdf_symmetric|].
  repeat (split; [assumption|]).
  exact (put_call_parity logistic py_float 100 100 0.04 0.25 0.01 0.2
           logistic_cdf_symmetric H100 H100 HT Hvol Hno).
Defined.

Lemma delta_bounds_witness :
  (forall x, 0 <= cdf logistic x <= 1) /\
  0 < 100 /\ 0 < 0.25 /\ 0 < 0.2 /\
  no_overflow py_float 0.04 0.25 0.01 0.2 /\
  exists call put callDelta putDelta,
    OptionPricingDash.black_scholes logistic py_float
      100 100 0.04 0.25 0.01 0.2 "call"
    = (Some call, []) /\
    OptionPricingDash.black_scholes logistic py_float
      100 100 0.04 0.25 0.01 0.2 "put"
    = (Some put, []) /\
    dict_get call "Call Delta" = Some callDelta /\
    dict_get put "Put Delta" = Some putDelta /\
    0 <= callDelta <= exp (- (0.01 * Rmax 0.25 T_floor)) /\
    - exp (- (0.01 * Rmax 0.25 T_floor)) <= putDelta <= 0.
Proof.
  assert (H100 : 0 < 100) by lra.
  assert (HT : 0 < 0.25) by lra.
  assert (Hvol : 0 < 0.2) by lra.
  pose proof (scenario_no_overflow py_float 0.25) as Hno.
  split; [exact logistic_cdf_range|].
  repeat (split; [assumption|]).
  exact (delta_bounds logistic py_float 100 100 0.04 0.25 0.01 0.2
           logistic_cdf_range H100 H100 HT Hvol Hno).
Defined.

(** Half a day to expiry is priced as one day; a volatility of 0.05% is
    priced as 0.1%. *)
Lemma floors_after_gate_witness :
  0 < 1 / 730 <= T_floor /\ 0 < 0.0005 <= vol_floor /\
  OptionPricingDash.black_scholes logistic py_float
    100 100 0.04 (1 / 730) 0.01 0.0005 "call"
  = OptionPricingDash.black_scholes logistic py_float
      100 100 0.04 T_floor 0.01 0.0005 "call"
  /\
  OptionPricingDash.black_scholes logistic py_float
    100 100 0.04 (1 / 730) 0.01 0.0005 "call"
  = OptionPricingDash.black_scholes logistic py_float
      100 100 0.04 (1 / 730) 0.01 vol_floor "call"
  /\
  fst (OptionPricingDash.black_scholes logistic py_float
         100 100 0.04 (1 / 730) 0.01 0.0005 "call")
  <> None.
Proof.
  assert (HS : 0 < 100) by lra.
  assert (HT : 0 < 1 / 730 <= T_floor) by (unfold T_floor; lra).
  assert (Hvol : 0 < 0.0005 <= vol_floor) by (unfold vol_floor; lra).
  assert (Hno : no_overflow py_float 0.04 (1 / 730) 0.01 0.0005)
    by (apply no_overflow_usual; lra).
  destruct (floors_after_gate logistic py_float
              100 100 0.04 (1 / 730) 0.01 0.0005)
    as (HfloorT & Hfloorvol & Honly).
  split; [exact HT|]. split; [exact Hvol|].
  split; [apply (HfloorT HS HS (proj1 Hvol) HT)|].
  split; [apply (Hfloorvol HS HS (proj1 HT) Hvol)|].
  intros Hnone.
  apply (Honly "call"%string (or_introl eq_refl)) in Hnone.
  destruct Hnone as [Hbad | Hover]; [lra | exact (Hover Hno)].
Defined.

(** C5, the claim as written fails: at S = K = 100, r = 0.04, T = 1,
    q = -1024, vol = 0.20 none of spot, strike, time and volatility is zero
    or negative, and yet the put side is rejected: [math.exp] overflows
    and the handler returns [None]. *)
Lemma overflow_rejected_with_positive_inputs :
  ~ (100 <= 0 \/ 100 <= 0 \/ 1 <= 0 \/ 0.2 <= 0) /\
  fst (OptionPricingDash.black_scholes logistic py_float
         100 100 0.04 1 (-1024) 0.2 "put") = None /\
  fst (OptionPricingDash.black_scholes logistic np_float64
         100 100 0.04 1 (-1024) 0.2 "put") = None.
Proof.
  split; [lra|].
  rewrite (proj2 (overflow_run py_float "put")).
  rewrite (proj2 (overflow_run np_float64 "put")).
  split; reflexivity.
Qed.

Lemma expiry_normalization_witness :
  (0 <= 0)%Z /\ (0 < 10)%Z /\
  fst (live_data.T 0) = 1 / 365 /\
  fst (atm_option_analysis.T 0) = 1 / 365 /\
  snd (live_data.T 0) <> [] /\
  snd (atm_option_analysis.T 0) <> [] /\
  live_data.T 10 = (IZR 10 / 365, []) /\
  atm_option_analysis.T 10 = (IZR 10 / 365, []).
Proof.
  assert (H0 : (0 <= 0)%Z) by apply Z.le_refl.
  assert (H10 : (0 < 10)%Z) by reflexivity.
  destruct (proj1 (expiry_normalization 0) H0) as [Hl Ha].
  destruct (proj1 (proj2 (expiry_normalization 10)) H10) as [Hl10 Ha10].
  split; [exact H0|]. split; [exact H10|].
  rewrite Hl, Ha.
  repeat split; try assumption; discriminate.
Defined.

Lemma atm_strike_stable_argmin_witness :
  [100; 105; 95] <> [] /\
  exists k,
    live_data.atm_strike [100; 105; 95] 101 = Normal k /\
    atm_option_analysis.atm_strike [100; 105; 95] 101 = Normal k /\
    In k [100; 105; 95] /\
    stable_argmin [100; 105; 95] 101 k.
Proof.
  assert (Hne : [100; 105; 95] <> []) by discriminate.
  split; [exact Hne|].
  apply (proj1 atm_strike_stable_argmin [100; 105; 95] 101 Hne).
Defined.

(** A one-row chain: the gate lets it through and the selection returns
    its strike; with the puts table empty the gate stops the script. *)
Lemma atm_strike_empty_raises_witness :
  ([quote100] = [] \/ @nil OptionQuote = []) /\
  [quote100] <> [] /\
  live_data.find_atm [quote100] [] 101
  = (Normal None,
     ["Error: No option chain data available for selected expiry"%string]) /\
  exists k,
    live_data.find_atm [quote100] [quote100] 101 = (Normal (Some k), []) /\
    atm_option_analysis.find_atm [quote100] [quote100] 101
    = (Normal (Some k), []) /\
    In k (strike_tolist [quote100]).
Proof.
  assert (Hgate : [quote100] = [] \/ @nil OptionQuote = [])
    by (right; reflexivity).
  assert (Hne : [quote100] <> []) by discriminate.
  destruct atm_strike_empty_raises as (_ & Hstop & Hpast).
  split; [exact Hgate|]. split; [exact Hne|].
  split; [exact (proj1 (Hstop [quote100] [] 101 Hgate))|].
  exact (Hpast [quote100] [quote100] 101 Hne Hne).
Defined.

Lemma mispricing_evaluation_witness :
  dict_get [("Call Price"%string, 10)] "Call Price" = Some 10 /\
  10 <> 0 /\
  in_range (11 - 10) /\ in_range ((11 - 10) / 10 * 100) /\
  live_data.mispricing_call 11 (Some [("Call Price"%string, 10)])
  = Normal (Some (Finite ((11 - 10) / 10 * 100))) /\
  atm_option_analysis.mispricing_call 11 (Some [("Call Price"%string, 10)])
  = Normal (Some (Finite ((11 - 10) / 10 * 100))).
Proof.
  assert (Hget : dict_get [("Call Price"%string, 10)] "Call Price" = Some 10)
    by reflexivity.
  assert (Hne : 10 <> 0) by lra.
  assert (Hsub : in_range (11 - 10)).
  { apply in_range_small. rewrite Rabs_right; lra. }
  assert (Hpct : in_range ((11 - 10) / 10 * 100)).
  { apply in_range_small. rewrite Rabs_right; lra. }
  split; [exact Hget|]. split; [exact Hne|].
  split; [exact Hsub|]. split; [exact Hpct|].
  exact (proj1 (proj1 (mispricing_evaluation 11 10
                         [("Call Price"%string, 10)]) Hget) Hne Hsub Hpct).
Defined.

(** * Further properties of the code *)

(** ** The pricing function: the remaining Greeks *)

Lemma logistic_pdf_nonneg (x : R) : 0 <= pdf logistic x.
Proof.
  simpl. pose proof (exp_pos (- x)) as He.
  apply Rlt_le, Rdiv_lt_0_compat; nra.
Qed.

Lemma Rmax_T_floor_pos (T : R) : 0 < Rmax T T_floor.
Proof.
  apply Rlt_le_trans with T_floor; [unfold T_floor; lra | apply Rmax_r].
Qed.

Lemma Rmax_vol_floor_pos (vol : R) : 0 < Rmax vol vol_floor.
Proof.
  apply Rlt_le_trans with vol_floor; [unfold vol_floor; lra | apply Rmax_r].
Qed.

(** Opens the call-side and the put-side result of one valid input. *)
Ltac price_both norm kind S K r T q vol HS HK HT Hvol Hno :=
  rewrite (black_scholes_call norm kind S K r T q vol HS HK HT Hvol Hno);
  rewrite (black_scholes_put norm kind S K r T q vol HS HK HT Hvol Hno);
  cbv zeta.

Tactic Notation "give_results" integer(n) :=
  do n eexists; repeat (split; [reflexivity|]).

Section Greeks.

Variable norm : rv_continuous.
Variable vol_kind : float_kind.

Import OptionPricingDash.

(** X1. The put side: for positive spot, strike, time and volatility at
    which nothing overflows inside the [try] block, the function returns a
    dictionary whose price is
    K e^(-rT') Phi(-d2) - S e^(-qT') Phi(-d1) and whose delta is
    e^(-qT') (Phi(d1) - 1), at the floored time and volatility. *)
Theorem put_price_and_delta (S K r T q vol : R) :
  0 < S -> 0 < K -> 0 < T -> 0 < vol ->
  no_overflow vol_kind r T q vol ->
  let T' := Rmax T T_floor in
  let sigma := Rmax vol vol_floor in
  let d1 := d1_spec S K r q sigma T' in
  let d2 := d2_spec S K r q sigma T' in
  exists result,
    black_scholes norm vol_kind S K r T q vol "put" = (Some result, []) /\
    dict_get result "Put Price" =
      Some (K * exp (- (r * T')) * cdf norm (- d2)
            - S * exp (- (q * T')) * cdf norm (- d1)) /\
    dict_get result "Put Delta" = Some (exp (- (q * T')) * (cdf norm d1 - 1)).
Proof.
  intros HS HK HT Hvol Hno T' sigma d1 d2.
  rewrite (black_scholes_put norm vol_kind S K r T q vol HS HK HT Hvol Hno).
  cbv zeta.
  eexists. split; [reflexivity|]. split; reflexivity.
Qed.

(** X2. Gamma and vega do not depend on the side: on the same valid input
    at which nothing overflows, the call result and the put result carry
    the same gamma,
    phi(d1) e^(-qT') / (S sigma sqrt T'), and the same vega,
    S phi(d1) sqrt T' e^(-qT') / 100. *)
Theorem gamma_vega_same_on_both_sides (S K r T q vol : R) :
  0 < S -> 0 < K -> 0 < T -> 0 < vol ->
  no_overflow vol_kind r T q vol ->
  let T' := Rmax T T_floor in
  let sigma := Rmax vol vol_floor in
  let d1 := d1_spec S K r q sigma T' in
  exists call put gamma vega,
    black_scholes norm vol_kind S K r T q vol "call" = (Some call, []) /\
    black_scholes norm vol_kind S K r T q vol "put" = (Some put, []) /\
    dict_get call "Call Gamma" = Some gamma /\
    dict_get put "Put Gamma" = Some gamma /\
    dict_get call "Call Vega" = Some vega /\
    dict_get put "Put Vega" = Some vega /\
    gamma = pdf norm d1 * exp (- (q * T')) / (S * sigma * sqrt T') /\
    vega = S * pdf norm d1 * sqrt T' * exp (- (q * T')) / 100.
Proof.
  intros HS HK HT Hvol Hno T' sigma d1.
  price_both norm vol_kind S K r T q vol HS HK HT Hvol Hno.
  give_results 4. reflexivity.
Qed.

(** X3. Vega and gamma of the result of a valid input at which nothing
    overflows are tied by vega = gamma S^2 sigma T' / 100, whatever the
    density is. *)
Theorem vega_gamma_identity (S K r T q vol : R) :
  0 < S -> 0 < K -> 0 < T -> 0 < vol ->
  no_overflow vol_kind r T q vol ->
  let T' := Rmax T T_floor in
  let sigma := Rmax vol vol_floor in
  exists call gamma vega,
    black_scholes norm vol_kind S K r T q vol "call" = (Some call, []) /\
    dict_get call "Call Gamma" = Some gamma /\
    dict_get call "Call Vega" = Some vega /\
    vega = gamma * (S * S) * sigma * T' / 100.
Proof.
  intros HS HK HT Hvol Hno T' sigma.
  rewrite (black_scholes_call norm vol_kind S K r T q vol HS HK HT Hvol Hno).
  cbv zeta.
  give_results 3.
  fold T' sigma.
  pose proof (Rmax_T_floor_pos T) as HT'. fold T' in HT'.
  pose proof (Rmax_vol_floor_pos vol) as Hs. fold sigma in Hs.
  pose proof (sqrt_lt_R0 T' HT') as Hsq.
  pose proof (sqrt_sqrt T' (Rlt_le _ _ HT')) as Hsqq.
  set (s := sqrt T') in *.
  set (p := pdf norm _). set (e := exp _).
  clearbody p e s. clearbody T' sigma.
  rewrite <- Hsqq. field. repeat split; lra.
Qed.

(** X4. The call delta exceeds the put delta of the same valid input, at
    which nothing overflows, by exactly e^(-qT'), whatever the distribution
    function is. *)
Theorem delta_difference (S K r T q vol : R) :
  0 < S -> 0 < K -> 0 < T -> 0 < vol ->
  no_overflow vol_kind r T q vol ->
  let T' := Rmax T T_floor in
  exists call put callDelta putDelta,
    black_scholes norm vol_kind S K r T q vol "call" = (Some call, []) /\
    black_scholes norm vol_kind S K r T q vol "put" = (Some put, []) /\
    dict_get call "Call Delta" = Some callDelta /\
    dict_get put "Put Delta" = Some putDelta /\
    callDelta - putDelta = exp (- (q * T')).
Proof.
  intros HS HK HT Hvol Hno T'.
  price_both norm vol_kind S K r T q vol HS HK HT Hvol Hno.
  give_results 4. fold T'. ring.
Qed.

(** X5. Parity of rho and theta: with Phi(-x) = 1 - Phi(x), on the same
    valid input at which nothing overflows call rho minus put rho is
    K T' e^(-rT') / 100 and call theta minus put theta is
    (q S e^(-qT') - r K e^(-rT')) / 365. *)
Theorem rho_theta_parity (S K r T q vol : R) :
  (forall x, cdf norm (- x) = 1 - cdf norm x) ->
  0 < S -> 0 < K -> 0 < T -> 0 < vol ->
  no_overflow vol_kind r T q vol ->
  let T' := Rmax T T_floor in
  exists call put callRho putRho callTheta putTheta,
    black_scholes norm vol_kind S K r T q vol "call" = (Some call, []) /\
    black_scholes norm vol_kind S K r T q vol "put" = (Some put, []) /\
    dict_get call "Call Rho" = Some callRho /\
    dict_get put "Put Rho" = Some putRho /\
    dict_get call "Call Theta" = Some callTheta /\
    dict_get put "Put Theta" = Some putTheta /\
    callRho - putRho = K * T' * exp (- (r * T')) / 100 /\
    callTheta - putTheta
    = (q * S * exp (- (q * T')) - r * K * exp (- (r * T'))) / 365.
Proof.
  intros Hsym HS HK HT Hvol Hno T'.
  price_both norm vol_kind S K r T q vol HS HK HT Hvol Hno.
  give_results 6. fold T'. rewrite !Hsym. split; unfold Rdiv; ring.
Qed.

(** X6. Signs: with a non-negative density and distribution function, on
    a valid input at which nothing overflows gamma and vega are
    non-negative, the call rho is non-negative and the put rho is
    non-positive. *)
Theorem greeks_signs (S K r T q vol : R) :
  (forall x, 0 <= pdf norm x) ->
  (forall x, 0 <= cdf norm x) ->
  0 < S -> 0 < K -> 0 < T -> 0 < vol ->
  no_overflow vol_kind r T q vol ->
  exists call put gamma vega callRho putRho,
    black_scholes norm vol_kind S K r T q vol "call" = (Some call, []) /\
    black_scholes norm vol_kind S K r T q vol "put" = (Some put, []) /\
    dict_get call "Call Gamma" = Some gamma /\
    dict_get call "Call Vega" = Some vega /\
    dict_get call "Call Rho" = Some callRho /\
    dict_get put "Put Rho" = Some putRho /\
    0 <= gamma /\ 0 <= vega /\ 0 <= callRho /\ putRho <= 0.
Proof.
  intros Hpdf Hcdf HS HK HT Hvol Hno.
  price_both norm vol_kind S K r T q vol HS HK HT Hvol Hno.
  give_results 6.
  pose proof (Rmax_T_floor_pos T) as HT'.
  pose proof (Rmax_vol_floor_pos vol) as Hs.
  pose proof (sqrt_lt_R0 _ HT') as Hsq.
  set (T' := Rmax T T_floor) in *. set (sigma := Rmax vol vol_floor) in *.
  pose proof (Hpdf (d1_spec S K r q sigma T')) as Hp.
  pose proof (Hcdf (d2_spec S K r q sigma T')) as Hc.
  pose proof (Hcdf (- d2_spec S K r q sigma T')) as Hcn.
  pose proof (exp_pos (- (q * T'))) as Hdq.
  pose proof (exp_pos (- (r * T'))) as Hdr.
  set (p := pdf norm _) in *. set (s := sqrt T') in *.
  set (dq := exp (- (q * T'))) in *. set (dr := exp (- (r * T'))) in *.
  set (c := cdf norm (d2_spec _ _ _ _ _ _)) in *.
  set (cn := cdf norm (- _)) in *.
  clearbody p s dq dr c cn. clearbody T' sigma.
  assert (Hden : 0 < S * sigma * s)
    by (repeat apply Rmult_lt_0_compat; assumption).
  assert (Hpe : 0 <= p * dq) by (apply Rmult_le_pos; lra).
  assert (HKT : 0 < K * T' * dr)
    by (repeat apply Rmult_lt_0_compat; assumption).
  split; [|split; [|split]].
  - unfold Rdiv. apply Rmult_le_pos; [exact Hpe|].
    apply Rlt_le, Rinv_0_lt_compat, Hden.
  - assert (0 <= S * p * s * dq); [|lra].
    replace (S * p * s * dq) with ((S * s) * (p * dq)) by ring.
    apply Rmult_le_pos; [apply Rlt_le, Rmult_lt_0_compat; lra | exact Hpe].
  - assert (0 <= K * T' * dr * c); [|lra].
    apply Rmult_le_pos; lra.
  - assert (0 <= K * T' * dr * cn) as Hn by (apply Rmult_le_pos; lra).
    replace (- K * T' * dr * cn / 100) with (- (K * T' * dr * cn) / 100)
      by (unfold Rdiv; ring).
    lra.
Qed.

(** X7. Price bounds: with a distribution function with values in [0, 1],
    on a valid input at which nothing overflows the call price lies between
    -K e^(-rT') and S e^(-qT'), the put price between -S e^(-qT') and
    K e^(-rT'). *)
Theorem price_bounds (S K r T q vol : R) :
  (forall x, 0 <= cdf norm x <= 1) ->
  0 < S -> 0 < K -> 0 < T -> 0 < vol ->
  no_overflow vol_kind r T q vol ->
  let T' := Rmax T T_floor in
  exists call put callPrice putPrice,
    black_scholes norm vol_kind S K r T q vol "call" = (Some call, []) /\
    black_scholes norm vol_kind S K r T q vol "put" = (Some put, []) /\
    dict_get call "Call Price" = Some callPrice /\
    dict_get put "Put Price" = Some putPrice /\
    - (K * exp (- (r * T'))) <= callPrice <= S * exp (- (q * T')) /\
    - (S * exp (- (q * T'))) <= putPrice <= K * exp (- (r * T')).
Proof.
  intros Hcdf HS HK HT Hvol Hno T'.
  price_both norm vol_kind S K r T q vol HS HK HT Hvol Hno.
  give_results 4. fold T'.
  set (sigma := Rmax vol vol_floor).
  pose proof (Hcdf (d1_spec S K r q sigma T')) as H1.
  pose proof (Hcdf (d2_spec S K r q sigma T')) as H2.
  pose proof (Hcdf (- d1_spec S K r q sigma T')) as H1n.
  pose proof (Hcdf (- d2_spec S K r q sigma T')) as H2n.
  assert (HSe : 0 < S * exp (- (q * T')))
    by (apply Rmult_lt_0_compat; [exact HS | apply exp_pos]).
  assert (HKe : 0 < K * exp (- (r * T')))
    by (apply Rmult_lt_0_compat; [exact HK | apply exp_pos]).
  set (Se := S * exp (- (q * T'))) in *.
  set (Ke := K * exp (- (r * T'))) in *.
  clearbody Se Ke.
  split; split; nra.
Qed.

Lemma d1_spec_scale (lam S K r q sigma T : R) :
  0 < lam -> 0 < K ->
  d1_spec (lam * S) (lam * K) r q sigma T = d1_spec S K r q sigma T.
Proof.
  intros Hlam HK. unfold d1_spec.
  replace (lam * S / (lam * K)) with (S / K) by (field; lra).
  reflexivity.
Qed.

(** X8. Scaling: on a valid input at which nothing overflows, multiplying
    spot and strike by the same positive factor multiplies the call price
    and the put price by that factor and leaves both deltas unchanged. *)
Theorem price_scales_with_spot_and_strike (lam S K r T q vol : R) :
  0 < lam -> 0 < S -> 0 < K -> 0 < T -> 0 < vol ->
  no_overflow vol_kind r T q vol ->
  exists call call' put put' cp cp' pp pp' cd pd,
    black_scholes norm vol_kind S K r T q vol "call" = (Some call, []) /\
    black_scholes norm vol_kind (lam * S) (lam * K) r T q vol "call"
    = (Some call', []) /\
    black_scholes norm vol_kind S K r T q vol "put" = (Some put, []) /\
    black_scholes norm vol_kind (lam * S) (lam * K) r T q vol "put"
    = (Some put', []) /\
    dict_get call "Call Price" = Some cp /\
    dict_get call' "Call Price" = Some cp' /\
    dict_get put "Put Price" = Some pp /\
    dict_get put' "Put Price" = Some pp' /\
    dict_get call "Call Delta" = Some cd /\
    dict_get call' "Call Delta" = Some cd /\
    dict_get put "Put Delta" = Some pd /\
    dict_get put' "Put Delta" = Some pd /\
    cp' = lam * cp /\ pp' = lam * pp.
Proof.
  intros Hlam HS HK HT Hvol Hno.
  assert (HlS : 0 < lam * S) by (apply Rmult_lt_0_compat; assumption).
  assert (HlK : 0 < lam * K) by (apply Rmult_lt_0_compat; assumption).
  price_both norm vol_kind S K r T q vol HS HK HT Hvol Hno.
  price_both norm vol_kind (lam * S) (lam * K) r T q vol HlS HlK HT Hvol Hno.
  unfold d2_spec. rewrite !(d1_spec_scale lam S K) by assumption.
  give_results 10. split; ring.
Qed.

End Greeks.

(** ** The pricing function: what it returns and prints *)

Section Results.

Variable norm : rv_continuous.
Variable vol_kind : float_kind.

Import OptionPricingDash.

(** X9. The function has these outcomes and no other.  [None] without a
    printed line when an input is zero or negative.  On a valid input:
    [None] with one error line when the power of the volatility overflows
    (a Python float only), when e^(-qT') overflows, or, on the call and put
    sides, when e^(-rT') overflows (the last two with the line of
    [math.exp], 'math range error'); the six call entries for 'call' and
    the six put entries for 'put', each in the order of the source and with
    nothing printed, when nothing overflows; and for any other side, when
    the lines before the test of the side do not overflow, [None] with the
    line of the [ValueError].  No result is partly filled. *)
Theorem result_shape (S K r T q vol : R) (option_type : string) :
  let run := black_scholes norm vol_kind S K r T q vol option_type in
  let valid := 0 < S /\ 0 < K /\ 0 < T /\ 0 < vol in
  let T' := Rmax T T_floor in
  let sigma := Rmax vol vol_floor in
  let failed line :=
    run = (None, [("Error in Black-Scholes calculation: " ++ line)%string]) in
  ((S <= 0 \/ K <= 0 \/ T <= 0 \/ vol <= 0) /\ run = (None, [])) \/
  (valid /\ ~ pow2_ok vol_kind sigma /\ exists line, failed line) \/
  (valid /\ pow2_ok vol_kind sigma /\ ~ exp_ok (- (q * T')) /\
   failed "math range error"%string) \/
  (valid /\ pow2_ok vol_kind sigma /\ exp_ok (- (q * T')) /\
   (option_type = "call"%string \/ option_type = "put"%string) /\
   ~ exp_ok (- (r * T')) /\ failed "math range error"%string) \/
  (valid /\ no_overflow vol_kind r T q vol /\
   option_type = "call"%string /\
   exists d, run = (Some d, []) /\
     map fst d = ["Call Price"; "Call Delta"; "Call Gamma"; "Call Vega";
                  "Call Theta"; "Call Rho"]%string) \/
  (valid /\ no_overflow vol_kind r T q vol /\
   option_type = "put"%string /\
   exists d, run = (Some d, []) /\
     map fst d = ["Put Price"; "Put Delta"; "Put Gamma"; "Put Vega";
                  "Put Theta"; "Put Rho"]%string) \/
  (valid /\ pow2_ok vol_kind sigma /\ exp_ok (- (q * T')) /\
   option_type <> "call"%string /\ option_type <> "put"%string /\
   failed "option_type must be either 'call' or 'put'"%string).
Proof.
  intros run valid T' sigma failed. subst run valid failed. cbv beta.
  destruct (Rle_dec S 0) as [HS|HS];
    [left; split; [tauto | apply black_scholes_rejects; tauto]|].
  destruct (Rle_dec K 0) as [HK|HK];
    [left; split; [tauto | apply black_scholes_rejects; tauto]|].
  destruct (Rle_dec T 0) as [HT|HT];
    [left; split; [tauto | apply black_scholes_rejects; tauto]|].
  destruct (Rle_dec vol 0) as [Hvol|Hvol];
    [left; split; [tauto | apply black_scholes_rejects; tauto]|].
  apply Rnot_le_lt in HS, HK, HT, Hvol. right.
  assert (Hvalid : 0 < S /\ 0 < K /\ 0 < T /\ 0 < vol) by tauto.
  destruct (pow2_ok_dec vol_kind sigma) as [Hpow | Hpow].
  2:{ left. split; [exact Hvalid|]. split; [exact Hpow|].
      rewrite (black_scholes_valid norm vol_kind S K r T q vol option_type
                 HS HK HT Hvol).
      rewrite (black_scholes_try_pow_overflow norm vol_kind
                 _ _ _ _ _ _ _ Hpow).
      eexists. reflexivity. }
  right.
  destruct (exp_ok_dec (- (q * T'))) as [Hq | Hq].
  2:{ left. split; [exact Hvalid|]. split; [exact Hpow|].
      split; [exact Hq|].
      rewrite (black_scholes_valid norm vol_kind S K r T q vol option_type
                 HS HK HT Hvol).
      rewrite (black_scholes_try_exp_q_overflow norm vol_kind
                 _ _ _ _ _ _ _ Hpow Hq).
      reflexivity. }
  right.
  destruct (String.eqb_spec option_type "call") as [Ec | Hc];
    [|destruct (String.eqb_spec option_type "put") as [Ep | Hp]].
  3:{ do 3 right. split; [exact Hvalid|]. split; [exact Hpow|].
      split; [exact Hq|]. split; [exact Hc|]. split; [exact Hp|].
      rewrite (black_scholes_valid norm vol_kind S K r T q vol option_type
                 HS HK HT Hvol).
      rewrite (black_scholes_try_other norm vol_kind
                 _ _ _ _ _ _ _ Hpow Hq Hc Hp).
      reflexivity. }
  - destruct (exp_ok_dec (- (r * T'))) as [Hr | Hr].
    + right. left. assert (Hno : no_overflow vol_kind r T q vol)
        by (unfold no_overflow; tauto).
      split; [exact Hvalid|]. split; [exact Hno|]. split; [exact Ec|].
      subst option_type.
      rewrite (black_scholes_call norm vol_kind S K r T q vol
                 HS HK HT Hvol Hno). cbv zeta.
      eexists. split; reflexivity.
    + left. split; [exact Hvalid|]. split; [exact Hpow|].
      split; [exact Hq|]. split; [left; exact Ec|]. split; [exact Hr|].
      rewrite (black_scholes_valid norm vol_kind S K r T q vol option_type
                 HS HK HT Hvol).
      rewrite (black_scholes_try_exp_r_overflow norm vol_kind
                 _ _ _ _ _ _ _ (or_introl Ec) Hpow Hq Hr).
      reflexivity.
  - destruct (exp_ok_dec (- (r * T'))) as [Hr | Hr].
    + right. right. left. assert (Hno : no_overflow vol_kind r T q vol)
        by (unfold no_overflow; tauto).
      split; [exact Hvalid|]. split; [exact Hno|]. split; [exact Ep|].
      subst option_type.
      rewrite (black_scholes_put norm vol_kind S K r T q vol
                 HS HK HT Hvol Hno). cbv zeta.
      eexists. split; reflexivity.
    + left. split; [exact Hvalid|]. split; [exact Hpow|].
      split; [exact Hq|]. split; [right; exact Ep|]. split; [exact Hr|].
      rewrite (black_scholes_valid norm vol_kind S K r T q vol option_type
                 HS HK HT Hvol).
      rewrite (black_scholes_try_exp_r_overflow norm vol_kind
                 _ _ _ _ _ _ _ (or_intror Ep) Hpow Hq Hr).
      reflexivity.
Qed.

(** X10. Pricing, then mispricing: whatever the inputs, handing the call
    result to the call block and the put result to the put block of either
    script never raises; no percentage is computed exactly when the pricing
    function returned [None], that is when an input was rejected by the
    gate or something overflowed inside the [try] block. *)
Theorem mispricing_after_pricing_never_raises
    (S K r T q vol market_price : R) :
  exists call_pct put_pct,
    live_data.mispricing_call market_price
      (fst (black_scholes norm vol_kind S K r T q vol "call"))
    = Normal call_pct /\
    atm_option_analysis.mispricing_call market_price
      (fst (black_scholes norm vol_kind S K r T q vol "call"))
    = Normal call_pct /\
    live_data.mispricing_put market_price
      (fst (black_scholes norm vol_kind S K r T q vol "put"))
    = Normal put_pct /\
    atm_option_analysis.mispricing_put market_price
      (fst (black_scholes norm vol_kind S K r T q vol "put"))
    = Normal put_pct /\
    (call_pct = None <->
     (S <= 0 \/ K <= 0 \/ T <= 0 \/ vol <= 0) \/
     ~ no_overflow vol_kind r T q vol) /\
    (put_pct = None <->
     (S <= 0 \/ K <= 0 \/ T <= 0 \/ vol <= 0) \/
     ~ no_overflow vol_kind r T q vol).
Proof.
  unfold live_data.mispricing_call, atm_option_analysis.mispricing_call,
    live_data.mispricing_put, atm_option_analysis.mispricing_put.
  destruct (Rle_dec S 0) as [HS|HS]; [|
  destruct (Rle_dec K 0) as [HK|HK]; [|
  destruct (Rle_dec T 0) as [HT|HT]; [|
  destruct (Rle_dec vol 0) as [Hvol|Hvol]]]].
  1-4: exists None, None;
       rewrite !(black_scholes_rejects norm vol_kind S K r T q vol) by tauto;
       repeat split; try reflexivity; intros _; tauto.
  apply Rnot_le_lt in HS, HK, HT, Hvol.
  destruct (no_overflow_dec vol_kind r T q vol) as [Hno | Hover].
  - price_both norm vol_kind S K r T q vol HS HK HT Hvol Hno.
    do 2 eexists. repeat (split; [reflexivity|]).
    split; (split; [discriminate | intros [Hbad | Hover]; [lra | tauto]]).
  - destruct (black_scholes_overflow norm vol_kind S K r T q vol "call"
                (or_introl eq_refl) HS HK HT Hvol Hover) as (m1 & ->).
    destruct (black_scholes_overflow norm vol_kind S K r T q vol "put"
                (or_intror eq_refl) HS HK HT Hvol Hover) as (m2 & ->).
    exists None, None. repeat (split; [reflexivity|]).
    split; (split; [intros _; right; exact Hover | reflexivity]).
Qed.

(** X11. A result of the wrong side: handing the call result of a valid
    input at which nothing overflows to the put block (or the put result to
    the call block) raises [KeyError] on the missing price key. *)
Theorem mispricing_wrong_side_raises (S K r T q vol market_price : R) :
  0 < S -> 0 < K -> 0 < T -> 0 < vol ->
  no_overflow vol_kind r T q vol ->
  live_data.mispricing_put market_price
    (fst (black_scholes norm vol_kind S K r T q vol "call"))
  = Raised (KeyError "Put Price") /\
  atm_option_analysis.mispricing_call market_price
    (fst (black_scholes norm vol_kind S K r T q vol "put"))
  = Raised (KeyError "Call Price").
Proof.
  intros HS HK HT Hvol Hno.
  price_both norm vol_kind S K r T q vol HS HK HT Hvol Hno.
  split; reflexivity.
Qed.

End Results.

(** Removing the price entry leaves every other entry as it was. *)
Lemma greeks_data_get (price_key key : string) (bs : dict) :
  dict_get (greeks_data price_key bs) key =
  if String.eqb key price_key then None else dict_get bs key.
Proof.
  induction bs as [|[k v] rest IH]; cbn [greeks_data filter dict_get fst].
  - destruct (String.eqb key price_key); reflexivity.
  - fold (greeks_data price_key rest).
    destruct (String.eqb_spec k price_key) as [-> | Hk]; cbn [negb].
    + rewrite IH. destruct (String.eqb_spec key price_key) as [-> | Hkey].
      * reflexivity.
      * apply not_eq_sym, String.eqb_neq in Hkey. rewrite Hkey. reflexivity.
    + cbn [dict_get]. destruct (String.eqb_spec k key) as [-> | Hkk].
      * apply String.eqb_neq in Hk. rewrite Hk. reflexivity.
      * exact IH.
Qed.

(** X12. The Greeks shown: removing the price from a result never yields
    the price key and keeps the value of every other key; for the result
    of a valid call (put) input without overflow what is left is the five
    Greeks Delta,
    Gamma, Vega, Theta, Rho in this order, so five columns are laid out. *)
Theorem greeks_data_of_result (norm : rv_continuous)
    (vol_kind : float_kind) (S K r T q vol : R) :
  (forall price_key key bs,
     dict_get (greeks_data price_key bs) price_key = None /\
     (key <> price_key ->
      dict_get (greeks_data price_key bs) key = dict_get bs key)) /\
  (0 < S -> 0 < K -> 0 < T -> 0 < vol ->
   no_overflow vol_kind r T q vol ->
   exists call put,
     OptionPricingDash.black_scholes norm vol_kind S K r T q vol "call"
     = (Some call, []) /\
     OptionPricingDash.black_scholes norm vol_kind S K r T q vol "put"
     = (Some put, []) /\
     map fst (greeks_data "Call Price" call)
     = ["Call Delta"; "Call Gamma"; "Call Vega"; "Call Theta";
        "Call Rho"]%string /\
     map fst (greeks_data "Put Price" put)
     = ["Put Delta"; "Put Gamma"; "Put Vega"; "Put Theta";
        "Put Rho"]%string /\
     List.length (greeks_data "Call Price" call) = 5%nat /\
     List.length (greeks_data "Put Price" put) = 5%nat).
Proof.
  split.
  - intros price_key key bs. rewrite !greeks_data_get.
    rewrite String.eqb_refl. split; [reflexivity|].
    intros Hne. apply String.eqb_neq in Hne. rewrite Hne. reflexivity.
  - intros HS HK HT Hvol Hno.
    price_both norm vol_kind S K r T q vol HS HK HT Hvol Hno.
    do 2 eexists. repeat split; reflexivity.
Qed.

(** ** Expiry, selection and mispricing *)

Lemma T_positive_days (days_to_expiry : Z) :
  (0 < days_to_expiry)%Z -> 1 / 365 <= IZR days_to_expiry / 365.
Proof.
  intros Hpos.
  assert (H1 : 1 <= IZR days_to_expiry) by (apply IZR_le; lia).
  lra.
Qed.

Lemma T_ge_floor (days_to_expiry : Z) :
  T_floor <= fst (live_data.T days_to_expiry).
Proof.
  unfold live_data.T, T_floor.
  destruct (Z.leb_spec days_to_expiry 0) as [Hle | Hgt]; cbn [fst].
  - apply Rle_refl.
  - apply T_positive_days, Hgt.
Qed.

Lemma T_same_in_both_scripts (days_to_expiry : Z) :
  fst (atm_option_analysis.T days_to_expiry)
  = fst (live_data.T days_to_expiry).
Proof.
  unfold live_data.T, atm_option_analysis.T.
  destruct (days_to_expiry <=? 0)%Z; reflexivity.
Qed.

(** X13. The two floors are redundant: the time to expiry of either script
    is never below 1/365, so the pricing function's own floor leaves it
    unchanged, its gate never rejects it, and with positive spot, strike
    and volatility the function prices at exactly that time. *)
Theorem expiry_floor_redundant (norm : rv_continuous)
    (vol_kind : float_kind) (days_to_expiry : Z) :
  let T := fst (live_data.T days_to_expiry) in
  fst (atm_option_analysis.T days_to_expiry) = T /\
  1 / 365 <= T /\
  py_max T (1 / 365) = T /\
  forall S K r q vol option_type,
    0 < S -> 0 < K -> 0 < vol ->
    OptionPricingDash.black_scholes norm vol_kind S K r T q vol option_type =
    match OptionPricingDash.black_scholes_try norm vol_kind S K r T q
            (Rmax vol vol_floor) option_type with
    | Normal result => (Some result, [])
    | Raised e =>
        (None, [("Error in Black-Scholes calculation: " ++ str_exn e)%string])
    end.
Proof.
  intros T. pose proof (T_ge_floor days_to_expiry) as Hge.
  fold T in Hge. unfold T_floor in Hge.
  split; [apply T_same_in_both_scripts|]. split; [exact Hge|].
  assert (Hmax : py_max T (1 / 365) = T).
  { unfold py_max. destruct (Rlt_dec T (1 / 365)); lra. }
  split; [exact Hmax|].
  intros S K r q vol option_type HS HK Hvol.
  rewrite (black_scholes_valid norm vol_kind S K r T q vol option_type HS HK)
    by lra.
  rewrite <- py_max_Rmax. unfold T_floor. rewrite Hmax. reflexivity.
Qed.

(** X14. A later expiry never gives a smaller time to expiry. *)
Theorem expiry_monotone (d1 d2 : Z) :
  (d1 <= d2)%Z ->
  fst (live_data.T d1) <= fst (live_data.T d2) /\
  fst (atm_option_analysis.T d1) <= fst (atm_option_analysis.T d2).
Proof.
  intros Hle. rewrite !T_same_in_both_scripts.
  assert (H : fst (live_data.T d1) <= fst (live_data.T d2)); [|tauto].
  unfold live_data.T.
  destruct (Z.leb_spec d1 0) as [H1 | H1],
           (Z.leb_spec d2 0) as [H2 | H2]; cbn [fst].
  - apply Rle_refl.
  - apply T_positive_days, H2.
  - lia.
  - apply IZR_le in Hle. lra.
Qed.

(** X15. A strike equal to the spot price is selected: when the spot price
    occurs among the strikes, the selection of both scripts returns it. *)
Theorem atm_strike_exact_match (strikes : list R) (spot_price : R) :
  In spot_price strikes ->
  live_data.atm_strike strikes spot_price = Normal spot_price /\
  atm_option_analysis.atm_strike strikes spot_price = Normal spot_price.
Proof.
  intros Hin.
  assert (Hne : strikes <> []) by (intros ->; contradiction Hin).
  destruct (py_min_first_min (fun x => Rabs (x - spot_price)) strikes Hne)
    as (k & Hk & Hmin & _).
  specialize (Hmin spot_price Hin). cbv beta in Hmin.
  replace (spot_price - spot_price) with 0 in Hmin by ring.
  rewrite Rabs_R0 in Hmin.
  assert (Hk0 : k - spot_price = 0).
  { destruct (Req_dec (k - spot_price) 0) as [H0 | H0]; [exact H0|].
    apply Rabs_pos_lt in H0. lra. }
  assert (k = spot_price) by lra. subst k.
  unfold live_data.atm_strike, atm_option_analysis.atm_strike.
  split; exact Hk.
Qed.

(** X16. The order of the strikes decides only between ties: on two
    orderings of the same non-empty strikes the selected strikes are at the
    same distance from the spot price. *)
Theorem atm_distance_order_independent (strikes strikes' : list R)
    (spot_price : R) :
  strikes <> [] -> Permutation strikes strikes' ->
  exists k k',
    live_data.atm_strike strikes spot_price = Normal k /\
    live_data.atm_strike strikes' spot_price = Normal k' /\
    Rabs (k - spot_price) = Rabs (k' - spot_price).
Proof.
  intros Hne Hperm.
  assert (Hne' : strikes' <> []).
  { intros ->. apply Permutation_sym, Permutation_nil in Hperm.
    contradiction. }
  destruct (py_min_first_min (fun x => Rabs (x - spot_price)) strikes Hne)
    as (k & Hk & Hmin & before & after & Heq & _).
  destruct (py_min_first_min (fun x => Rabs (x - spot_price)) strikes' Hne')
    as (k' & Hk' & Hmin' & before' & after' & Heq' & _).
  exists k, k'. split; [exact Hk|]. split; [exact Hk'|].
  assert (Hin : In k strikes)
    by (rewrite Heq; apply in_or_app; right; left; reflexivity).
  assert (Hin' : In k' strikes')
    by (rewrite Heq'; apply in_or_app; right; left; reflexivity).
  pose proof (Hmin' k (Permutation_in _ Hperm Hin)) as H1.
  pose proof (Hmin k' (Permutation_in _ (Permutation_sym Hperm) Hin')) as H2.
  cbv beta in H1, H2. lra.
Qed.

(** X17. The mispricing percentage determines the market price: for a
    non-zero model price p, with the difference and the percentage within
    the float range, the result is the finite percentage m with
    p (1 + m / 100) = marketPrice; for a positive p it is positive exactly
    when the market price is above the model price, zero exactly when they
    are equal, and above -100 exactly when the market price is positive. *)
Theorem mispricing_pct_inverts (market_price model_price : R) :
  model_price <> 0 ->
  in_range (market_price - model_price) ->
  in_range ((market_price - model_price) / model_price * 100) ->
  exists m,
    mispricing_pct market_price model_price = Finite m /\
    model_price * (1 + m / 100) = market_price /\
    (0 < model_price ->
     (0 < m <-> model_price < market_price) /\
     (m = 0 <-> market_price = model_price) /\
     (-100 < m <-> 0 < market_price)).
Proof.
  intros Hne Hsub Hpct.
  exists ((market_price - model_price) / model_price * 100).
  split; [apply mispricing_pct_nonzero; assumption|].
  clear Hsub Hpct.
  set (x := (market_price - model_price) / model_price).
  assert (Hx : x * model_price = market_price - model_price)
    by (unfold x; field; exact Hne).
  clearbody x.
  split; [nra|].
  intros Hpos. repeat split; intros H; nra.
Qed.


(** ** The scripts from the option chain on *)

Lemma loc_strike_In (df : DataFrame) (k : R) (row : OptionQuote) :
  In row (loc_strike df k) <-> In row df /\ strike row = k.
Proof.
  unfold loc_strike. rewrite filter_In.
  destruct (Req_dec_T (strike row) k); split; intros [H1 H2];
    (split; [exact H1|]); (reflexivity || assumption || discriminate
                           || contradiction).
Qed.

Lemma loc_strike_empty (df : DataFrame) (k : R) :
  loc_strike df k = [] <-> forall row, In row df -> strike row <> k.
Proof.
  split.
  - intros Hnil row Hin Heq.
    assert (Hrow : In row (loc_strike df k)) by (apply loc_strike_In; tauto).
    rewrite Hnil in Hrow. contradiction Hrow.
  - intros Hnone. destruct (loc_strike df k) as [|row rest] eqn:Hloc;
      [reflexivity|].
    assert (Hrow : In row (loc_strike df k))
      by (rewrite Hloc; left; reflexivity).
    apply loc_strike_In in Hrow. destruct Hrow as [Hin Heq].
    contradiction (Hnone row Hin Heq).
Qed.

Lemma find_atm_same_in_both_scripts (calls puts : DataFrame) (spot_price : R) :
  fst (atm_option_analysis.find_atm calls puts spot_price)
  = fst (live_data.find_atm calls puts spot_price).
Proof.
  unfold atm_option_analysis.find_atm, live_data.find_atm.
  destruct (empty calls || empty puts); reflexivity.
Qed.

Lemma find_atm_gate (calls puts : DataFrame) (spot_price : R) :
  calls = [] \/ puts = [] ->
  fst (live_data.find_atm calls puts spot_price) = Normal None.
Proof.
  unfold live_data.find_atm.
  intros [-> | ->]; [reflexivity|]. destruct calls; reflexivity.
Qed.

Lemma find_atm_past_gate (calls puts : DataFrame) (spot_price : R) :
  calls <> [] -> puts <> [] ->
  exists k,
    fst (live_data.find_atm calls puts spot_price) = Normal (Some k) /\
    live_data.atm_strike (strike_tolist calls) spot_price = Normal k /\
    In k (strike_tolist calls).
Proof.
  intros Hc Hp.
  destruct calls as [|c calls]; [contradiction|].
  destruct puts as [|p puts]; [contradiction|].
  assert (Hne : strike_tolist (c :: calls) <> []) by discriminate.
  destruct (py_min_first_min (fun x => Rabs (x - spot_price))
              (strike_tolist (c :: calls)) Hne)
    as (k & Hk & _ & before & after & Heq & _).
  exists k. unfold live_data.find_atm, live_data.atm_strike.
  cbn [empty orb fst]. rewrite Hk.
  split; [reflexivity|]. split; [reflexivity|].
  rewrite Heq. apply in_or_app. right. left. reflexivity.
Qed.

(** With non-negative rates a numpy volatility cannot overflow the
    [try] block. *)
Lemma no_overflow_numpy (r T q vol : R) :
  0 <= r -> 0 <= q -> no_overflow np_float64 r T q vol.
Proof.
  intros Hr Hq.
  assert (HT : 0 < Rmax T T_floor).
  { apply Rlt_le_trans with T_floor; [unfold T_floor; lra | apply Rmax_r]. }
  unfold no_overflow. split; [left; reflexivity|].
  split; apply exp_ok_nonpos; nra.
Qed.

(** The four cases of an analysis section. *)
Lemma analysis_section_outcome (norm : rv_continuous) (r q : R)
    (side price_key : string) (atm_rows : DataFrame)
    (spot_price atm_strike T : R) :
  0 <= r -> 0 <= q ->
  (side = "call"%string /\ price_key = "Call Price"%string) \/
  (side = "put"%string /\ price_key = "Put Price"%string) ->
  exists res,
    analysis_section norm r q side price_key atm_rows spot_price atm_strike T
    = Normal res /\
    section_outcome norm r q side price_key atm_rows spot_price atm_strike T
      res.
Proof.
  intros Hr Hq Hside. unfold analysis_section, section_outcome.
  destruct atm_rows as [|row rest]; [exists Skipped; split; reflexivity|].
  cbv zeta.
  destruct (Rle_dec (impliedVolatility row) 0) as [Hiv | Hiv];
    [exists InvalidIV; split; [reflexivity | left; tauto]|].
  apply Rnot_le_lt in Hiv.
  destruct (Rle_dec spot_price 0) as [HS | HS]; [|
  destruct (Rle_dec atm_strike 0) as [HK | HK]; [|
  destruct (Rle_dec T 0) as [HT | HT]]].
  1-3: exists NoModel;
       rewrite (black_scholes_rejects
                  norm np_float64 spot_price atm_strike r T q) by tauto;
       split; [reflexivity | right; left; tauto].
  apply Rnot_le_lt in HS, HK, HT.
  pose proof (no_overflow_numpy r T q (impliedVolatility row) Hr Hq) as Hno.
  destruct Hside as [[-> ->] | [-> ->]].
  - rewrite (black_scholes_call norm np_float64 spot_price atm_strike r T q
               (impliedVolatility row) HS HK HT Hiv Hno). cbv zeta.
    eexists. split; [reflexivity|]. right. right.
    repeat (split; [assumption|]).
    do 2 eexists. split; [reflexivity|]. split; reflexivity.
  - rewrite (black_scholes_put norm np_float64 spot_price atm_strike r T q
               (impliedVolatility row) HS HK HT Hiv Hno). cbv zeta.
    eexists. split; [reflexivity|]. right. right.
    repeat (split; [assumption|]).
    do 2 eexists. split; [reflexivity|]. split; reflexivity.
Qed.


Section Scripts.

Variable norm : rv_continuous.

(** X18. An analysis section never raises, in either script and on either
    side; its outcome is the skipped one on an empty table of ATM rows, the
    invalid-volatility one when the first row's implied volatility is zero
    or negative, the no-model one when spot, strike or time is zero or
    negative, and otherwise the result of the pricing function at the
    rates 0.04 and 0.01 with the mispricing against the row's last price. *)
Theorem sections_never_raise (atm_rows : DataFrame)
    (spot_price atm_strike T : R) :
  exists c p,
    live_data.call_section norm atm_rows spot_price atm_strike T = Normal c /\
    atm_option_analysis.call_section norm atm_rows spot_price atm_strike T
    = Normal c /\
    live_data.put_section norm atm_rows spot_price atm_strike T = Normal p /\
    atm_option_analysis.put_section norm atm_rows spot_price atm_strike T
    = Normal p /\
    section_outcome norm 0.04 0.01 "call" "Call Price" atm_rows
      spot_price atm_strike T c /\
    section_outcome norm 0.04 0.01 "put" "Put Price" atm_rows
      spot_price atm_strike T p.
Proof.
  destruct (analysis_section_outcome norm 0.04 0.01 "call" "Call Price"
              atm_rows spot_price atm_strike T) as (c & Hc & Hco);
    [lra | lra | left; split; reflexivity|].
  destruct (analysis_section_outcome norm 0.04 0.01 "put" "Put Price"
              atm_rows spot_price atm_strike T) as (p & Hp & Hpo);
    [lra | lra | right; split; reflexivity|].
  exists c, p. repeat split; assumption.
Qed.

(** The report of either script past the gate, from its parts. *)
Lemma chains_past_gate (spot_price : R) (calls puts : DataFrame)
    (days_to_expiry : Z) :
  calls <> [] -> puts <> [] ->
  exists k c p,
    let T := fst (live_data.T days_to_expiry) in
    live_data.atm_strike (strike_tolist calls) spot_price = Normal k /\
    In k (strike_tolist calls) /\
    loc_strike calls k <> [] /\
    section_outcome norm 0.04 0.01 "call" "Call Price" (loc_strike calls k)
      spot_price k T c /\
    section_outcome norm 0.04 0.01 "put" "Put Price" (loc_strike puts k)
      spot_price k T p /\
    live_data.main_chain norm spot_price calls puts days_to_expiry
    = Normal (Some {| report_atm_strike := k; report_T := T;
                      report_call := c; report_put := p |}) /\
    atm_option_analysis.script_chain norm spot_price calls puts
      days_to_expiry "Call"
    = Normal (Some {| report_atm_strike := k; report_T := T;
                      report_call := c; report_put := Skipped |}) /\
    atm_option_analysis.script_chain norm spot_price calls puts
      days_to_expiry "Put"
    = Normal (Some {| report_atm_strike := k; report_T := T;
                      report_call := Skipped; report_put := p |}) /\
    forall option_type,
      option_type <> "Call"%string -> option_type <> "Put"%string ->
      atm_option_analysis.script_chain norm spot_price calls puts
        days_to_expiry option_type
      = Normal (Some {| report_atm_strike := k; report_T := T;
                        report_call := Skipped; report_put := Skipped |}).
Proof.
  intros Hcalls Hputs.
  destruct (find_atm_past_gate calls puts spot_price Hcalls Hputs)
    as (k & Hfind & Hsel & Hin).
  assert (Hrows : loc_strike calls k <> []).
  { intros Hnil. unfold strike_tolist in Hin. apply in_map_iff in Hin.
    destruct Hin as (row & Hstrike & Hrow).
    apply (proj1 (loc_strike_empty calls k) Hnil row Hrow Hstrike). }
  set (T := fst (live_data.T days_to_expiry)).
  destruct (analysis_section_outcome norm 0.04 0.01 "call" "Call Price"
              (loc_strike calls k) spot_price k T) as (c & Hc & Hco);
    [lra | lra | left; split; reflexivity|].
  destruct (analysis_section_outcome norm 0.04 0.01 "put" "Put Price"
              (loc_strike puts k) spot_price k T) as (p & Hp & Hpo);
    [lra | lra | right; split; reflexivity|].
  exists k, c, p. cbv zeta. fold T.
  split; [exact Hsel|]. split; [exact Hin|]. split; [exact Hrows|].
  split; [exact Hco|]. split; [exact Hpo|].
  unfold live_data.main_chain, atm_option_analysis.script_chain.
  rewrite find_atm_same_in_both_scripts, Hfind, T_same_in_both_scripts.
  fold T.
  unfold live_data.call_section, live_data.put_section,
    atm_option_analysis.call_section, atm_option_analysis.put_section,
    live_data.r, live_data.q, atm_option_analysis.r, atm_option_analysis.q.
  rewrite Hc, Hp.
  split; [reflexivity|].
  assert (Hne : negb (empty (loc_strike calls k)) = true)
    by (destruct (loc_strike calls k); [contradiction | reflexivity]).
  split; [|split].
  - change (String.eqb "Call" "Call") with true. rewrite Hne. reflexivity.
  - change (String.eqb "Put" "Call") with false.
    change (String.eqb "Put" "Put") with true. cbn [andb].
    destruct (loc_strike puts k) as [|row rest] eqn:Hloc.
    + cbn [empty negb]. cbn in Hp. injection Hp as <-. reflexivity.
    + reflexivity.
  - intros option_type HnC HnP.
    apply String.eqb_neq in HnC, HnP. rewrite HnC, HnP. reflexivity.
Qed.

(** X19. From the option chain on, neither script raises, whatever the
    spot price, the tables, the days to expiry and the side chosen: the
    blanket handler is never reached from there; the script stops early
    exactly when the calls or the puts table is empty. *)
Theorem chains_never_raise (spot_price : R) (calls puts : DataFrame)
    (days_to_expiry : Z) :
  (exists res,
     live_data.main_chain norm spot_price calls puts days_to_expiry
     = Normal res /\
     (res = None <-> calls = [] \/ puts = [])) /\
  (forall option_type,
     exists res,
       atm_option_analysis.script_chain norm spot_price calls puts
         days_to_expiry option_type = Normal res /\
       (res = None <-> calls = [] \/ puts = [])).
Proof.
  destruct calls as [|c calls'] eqn:Ecalls;
    [|destruct puts as [|p puts'] eqn:Eputs].
  1-2: split; [|intros option_type]; exists None;
       (split; [|split; [intros _; tauto | reflexivity]]);
       unfold live_data.main_chain, atm_option_analysis.script_chain;
       rewrite ?find_atm_same_in_both_scripts;
       rewrite find_atm_gate by tauto; reflexivity.
  destruct (chains_past_gate spot_price (c :: calls') (p :: puts')
              days_to_expiry) as (k & sc & sp & H); try discriminate.
  cbv zeta in H.
  destruct H as (_ & _ & _ & _ & _ & Hmain & Hcall & Hput & Hother).
  split.
  - eexists. split; [exact Hmain|].
    split; [discriminate | intros [? | ?]; discriminate].
  - intros option_type.
    destruct (String.eqb_spec option_type "Call") as [-> | HnC];
      [|destruct (String.eqb_spec option_type "Put") as [-> | HnP]].
    + eexists. split; [exact Hcall|].
      split; [discriminate | intros [? | ?]; discriminate].
    + eexists. split; [exact Hput|].
      split; [discriminate | intros [? | ?]; discriminate].
    + eexists. split; [exact (Hother option_type HnC HnP)|].
      split; [discriminate | intros [? | ?]; discriminate].
Qed.

Lemma section_outcome_not_skipped (r q : R) (side price_key : string)
    (atm_rows : DataFrame) (spot_price atm_strike T : R)
    (res : section_result) :
  section_outcome norm r q side price_key atm_rows spot_price atm_strike T
    res ->
  (res = Skipped <-> atm_rows = []).
Proof.
  unfold section_outcome. destruct atm_rows as [|row rest].
  - intros ->. split; reflexivity.
  - cbv zeta.
    intros [[_ ->] | [(_ & _ & ->) | (_ & _ & _ & _ & d & p & _ & _ & ->)]];
      split; discriminate.
Qed.

Lemma section_outcome_priced (r q : R) (side price_key : string)
    (atm_rows : DataFrame) (spot_price atm_strike T : R)
    (res : section_result) :
  0 < spot_price -> 0 < atm_strike -> 0 < T ->
  section_outcome norm r q side price_key atm_rows spot_price atm_strike T
    res ->
  res <> NoModel.
Proof.
  intros HS HK HT. unfold section_outcome.
  destruct atm_rows as [|row rest]; [intros ->; discriminate|].
  cbv zeta.
  intros [[_ ->] | [(_ & Hbad & _) | (_ & _ & _ & _ & d & p & _ & _ & ->)]];
    [discriminate | lra | discriminate].
Qed.

(** X20. Past the gate, [main] of [live_data.py] reports the strike the
    selection returns and the normalised time, and runs both sections on
    the rows at that strike: the call section always runs, the put section
    is skipped exactly when no put row has the selected strike. *)
Theorem main_chain_report (spot_price : R) (calls puts : DataFrame)
    (days_to_expiry : Z) :
  calls <> [] -> puts <> [] ->
  exists k c p,
    live_data.main_chain norm spot_price calls puts days_to_expiry
    = Normal (Some {| report_atm_strike := k;
                      report_T := fst (live_data.T days_to_expiry);
                      report_call := c; report_put := p |}) /\
    live_data.atm_strike (strike_tolist calls) spot_price = Normal k /\
    section_outcome norm 0.04 0.01 "call" "Call Price" (loc_strike calls k)
      spot_price k (fst (live_data.T days_to_expiry)) c /\
    section_outcome norm 0.04 0.01 "put" "Put Price" (loc_strike puts k)
      spot_price k (fst (live_data.T days_to_expiry)) p /\
    c <> Skipped /\
    (p = Skipped <-> forall row, In row puts -> strike row <> k).
Proof.
  intros Hcalls Hputs.
  destruct (chains_past_gate spot_price calls puts days_to_expiry
              Hcalls Hputs) as (k & c & p & H).
  cbv zeta in H.
  destruct H as (Hsel & _ & Hrows & Hco & Hpo & Hmain & _).
  exists k, c, p.
  split; [exact Hmain|]. split; [exact Hsel|].
  split; [exact Hco|]. split; [exact Hpo|]. split.
  - intros Hskip.
    apply (section_outcome_not_skipped _ _ _ _ _ _ _ _ _ Hco) in Hskip.
    contradiction.
  - rewrite (section_outcome_not_skipped _ _ _ _ _ _ _ _ _ Hpo).
    apply loc_strike_empty.
Qed.

(** X21. With a positive spot price and positive strikes, past the gate
    the selected strike is positive and the pricing function never fails
    in [main]: neither section ends in the no-model case (the message that
    the Black-Scholes price could not be calculated is never printed). *)
Theorem positive_chain_always_priced (spot_price : R)
    (calls puts : DataFrame) (days_to_expiry : Z) :
  0 < spot_price ->
  (forall row, In row calls -> 0 < strike row) ->
  calls <> [] -> puts <> [] ->
  exists rep,
    live_data.main_chain norm spot_price calls puts days_to_expiry
    = Normal (Some rep) /\
    0 < report_atm_strike rep /\
    1 / 365 <= report_T rep /\
    report_call rep <> NoModel /\
    report_put rep <> NoModel.
Proof.
  intros Hspot Hstrikes Hcalls Hputs.
  destruct (chains_past_gate spot_price calls puts days_to_expiry
              Hcalls Hputs) as (k & c & p & H).
  cbv zeta in H.
  destruct H as (_ & Hin & _ & Hco & Hpo & Hmain & _).
  assert (Hk : 0 < k).
  { unfold strike_tolist in Hin. apply in_map_iff in Hin.
    destruct Hin as (row & <- & Hrow). apply Hstrikes, Hrow. }
  pose proof (T_ge_floor days_to_expiry) as HT. unfold T_floor in HT.
  assert (HT0 : 0 < fst (live_data.T days_to_expiry)) by lra.
  eexists. split; [exact Hmain|]. cbn [report_atm_strike report_T
    report_call report_put].
  split; [exact Hk|]. split; [exact HT|]. split.
  - exact (section_outcome_priced _ _ _ _ _ _ _ _ _ Hspot Hk HT0 Hco).
  - exact (section_outcome_priced _ _ _ _ _ _ _ _ _ Hspot Hk HT0 Hpo).
Qed.

(** X22. The two scripts agree: past the gate the dashboard with 'Call'
    chosen reports the strike, the time and the call section of [main] and
    skips the put section, with 'Put' chosen it reports the put section of
    [main] and skips the call section, and with any other choice it skips
    both. *)
Theorem scripts_agree (spot_price : R) (calls puts : DataFrame)
    (days_to_expiry : Z) :
  calls <> [] -> puts <> [] ->
  exists k T c p,
    live_data.main_chain norm spot_price calls puts days_to_expiry
    = Normal (Some {| report_atm_strike := k; report_T := T;
                      report_call := c; report_put := p |}) /\
    atm_option_analysis.script_chain norm spot_price calls puts
      days_to_expiry "Call"
    = Normal (Some {| report_atm_strike := k; report_T := T;
                      report_call := c; report_put := Skipped |}) /\
    atm_option_analysis.script_chain norm spot_price calls puts
      days_to_expiry "Put"
    = Normal (Some {| report_atm_strike := k; report_T := T;
                      report_call := Skipped; report_put := p |}) /\
    forall option_type,
      option_type <> "Call"%string -> option_type <> "Put"%string ->
      atm_option_analysis.script_chain norm spot_price calls puts
        days_to_expiry option_type
      = Normal (Some {| report_atm_strike := k; report_T := T;
                        report_call := Skipped; report_put := Skipped |}).
Proof.
  intros Hcalls Hputs.
  destruct (chains_past_gate spot_price calls puts days_to_expiry
              Hcalls Hputs) as (k & c & p & H).
  cbv zeta in H.
  destruct H as (_ & _ & _ & _ & _ & Hmain & Hcall & Hput & Hother).
  exists k, (fst (live_data.T days_to_expiry)), c, p.
  repeat split; assumption.
Qed.

End Scripts.

(** ** The further properties on concrete inputs *)

(** The hypotheses of the scenario S = K = 100, T = 0.25, vol = 0.20. *)
Ltac scenario H100 HT Hvol Hno :=
  assert (H100 : 0 < 100) by lra;
  assert (HT : 0 < 0.25) by lra;
  assert (Hvol : 0 < 0.2) by lra;
  pose proof (scenario_no_overflow py_float 0.25) as Hno.

Lemma put_price_and_delta_witness :
  0 < 100 /\ 0 < 0.25 /\ 0 < 0.2 /\
  no_overflow py_float 0.04 0.25 0.01 0.2 /\
  exists result price delta,
    OptionPricingDash.black_scholes logistic py_float
      100 100 0.04 0.25 0.01 0.2 "put"
    = (Some result, []) /\
    dict_get result "Put Price" = Some price /\
    dict_get result "Put Delta" = Some delta.
Proof.
  scenario H100 HT Hvol Hno.
  repeat (split; [assumption|]).
  destruct (put_price_and_delta logistic py_float 100 100 0.04 0.25 0.01 0.2
              H100 H100 HT Hvol Hno) as (result & Hrun & Hprice & Hdelta).
  exists result. do 2 eexists.
  split; [exact Hrun|]. split; [exact Hprice | exact Hdelta].
Defined.

Lemma gamma_vega_same_on_both_sides_witness :
  0 < 100 /\ 0 < 0.25 /\ 0 < 0.2 /\
  no_overflow py_float 0.04 0.25 0.01 0.2 /\
  exists call put gamma vega,
    OptionPricingDash.black_scholes logistic py_float
      100 100 0.04 0.25 0.01 0.2 "call"
    = (Some call, []) /\
    OptionPricingDash.black_scholes logistic py_float
      100 100 0.04 0.25 0.01 0.2 "put"
    = (Some put, []) /\
    dict_get call "Call Gamma" = Some gamma /\
    dict_get put "Put Gamma" = Some gamma /\
    dict_get call "Call Vega" = Some vega /\
    dict_get put "Put Vega" = Some vega.
Proof.
  scenario H100 HT Hvol Hno.
  repeat (split; [assumption|]).
  destruct (gamma_vega_same_on_both_sides logistic py_float 100 100 0.04 0.25 0.01 0.2
              H100 H100 HT Hvol Hno)
    as (call & put & gamma & vega & H1 & H2 & H3 & H4 & H5 & H6 & _).
  exists call, put, gamma, vega. repeat split; assumption.
Defined.

Lemma vega_gamma_identity_witness :
  0 < 100 /\ 0 < 0.25 /\ 0 < 0.2 /\
  no_overflow py_float 0.04 0.25 0.01 0.2 /\
  exists call gamma vega,
    OptionPricingDash.black_scholes logistic py_float
      100 100 0.04 0.25 0.01 0.2 "call"
    = (Some call, []) /\
    dict_get call "Call Gamma" = Some gamma /\
    dict_get call "Call Vega" = Some vega /\
    vega = gamma * (100 * 100) * Rmax 0.2 vol_floor * Rmax 0.25 T_floor / 100.
Proof.
  scenario H100 HT Hvol Hno.
  repeat (split; [assumption|]).
  exact (vega_gamma_identity logistic py_float 100 100 0.04 0.25 0.01 0.2
           H100 H100 HT Hvol Hno).
Defined.

Lemma delta_difference_witness :
  0 < 100 /\ 0 < 0.25 /\ 0 < 0.2 /\
  no_overflow py_float 0.04 0.25 0.01 0.2 /\
  exists call put callDelta putDelta,
    OptionPricingDash.black_scholes logistic py_float
      100 100 0.04 0.25 0.01 0.2 "call"
    = (Some call, []) /\
    OptionPricingDash.black_scholes logistic py_float
      100 100 0.04 0.25 0.01 0.2 "put"
    = (Some put, []) /\
    dict_get call "Call Delta" = Some callDelta /\
    dict_get put "Put Delta" = Some putDelta /\
    callDelta - putDelta = exp (- (0.01 * Rmax 0.25 T_floor)).
Proof.
  scenario H100 HT Hvol Hno.
  repeat (split; [assumption|]).
  exact (delta_difference logistic py_float 100 100 0.04 0.25 0.01 0.2
           H100 H100 HT Hvol Hno).
Defined.

Lemma rho_theta_parity_witness :
  (forall x, cdf logistic (- x) = 1 - cdf logistic x) /\
  0 < 100 /\ 0 < 0.25 /\ 0 < 0.2 /\
  no_overflow py_float 0.04 0.25 0.01 0.2 /\
  exists call put callRho putRho,
    OptionPricingDash.black_scholes logistic py_float
      100 100 0.04 0.25 0.01 0.2 "call"
    = (Some call, []) /\
    OptionPricingDash.black_scholes logistic py_float
      100 100 0.04 0.25 0.01 0.2 "put"
    = (Some put, []) /\
    dict_get call "Call Rho" = Some callRho /\
    dict_get put "Put Rho" = Some putRho /\
    callRho - putRho
    = 100 * Rmax 0.25 T_floor * exp (- (0.04 * Rmax 0.25 T_floor)) / 100.
Proof.
  scenario H100 HT Hvol Hno.
  split; [exact logistic_cdf_symmetric|].
  repeat (split; [assumption|]).
  destruct (rho_theta_parity logistic py_float 100 100 0.04 0.25 0.01 0.2
              logistic_cdf_symmetric H100 H100 HT Hvol Hno)
    as (call & put & cr & pr & ct & pt & H1 & H2 & H3 & H4 & _ & _ & H7 & _).
  exists call, put, cr, pr. repeat split; assumption.
Defined.

Lemma greeks_signs_witness :
  (forall x, 0 <= pdf logistic x) /\ (forall x, 0 <= cdf logistic x) /\
  0 < 100 /\ 0 < 0.25 /\ 0 < 0.2 /\
  no_overflow py_float 0.04 0.25 0.01 0.2 /\
  exists call put gamma vega callRho putRho,
    OptionPricingDash.black_scholes logistic py_float
      100 100 0.04 0.25 0.01 0.2 "call"
    = (Some call, []) /\
    OptionPricingDash.black_scholes logistic py_float
      100 100 0.04 0.25 0.01 0.2 "put"
    = (Some put, []) /\
    dict_get call "Call Gamma" = Some gamma /\
    dict_get call "Call Vega" = Some vega /\
    dict_get call "Call Rho" = Some callRho /\
    dict_get put "Put Rho" = Some putRho /\
    0 <= gamma /\ 0 <= vega /\ 0 <= callRho /\ putRho <= 0.
Proof.
  scenario H100 HT Hvol Hno.
  assert (Hcdf : forall x, 0 <= cdf logistic x)
    by (intros x; apply logistic_cdf_range).
  split; [exact logistic_pdf_nonneg|]. split; [exact Hcdf|].
  repeat (split; [assumption|]).
  exact (greeks_signs logistic py_float 100 100 0.04 0.25 0.01 0.2
           logistic_pdf_nonneg Hcdf H100 H100 HT Hvol Hno).
Defined.

Lemma price_bounds_witness :
  (forall x, 0 <= cdf logistic x <= 1) /\
  0 < 100 /\ 0 < 0.25 /\ 0 < 0.2 /\
  no_overflow py_float 0.04 0.25 0.01 0.2 /\
  exists call put callPrice putPrice,
    OptionPricingDash.black_scholes logistic py_float
      100 100 0.04 0.25 0.01 0.2 "call"
    = (Some call, []) /\
    OptionPricingDash.black_scholes logistic py_float
      100 100 0.04 0.25 0.01 0.2 "put"
    = (Some put, []) /\
    dict_get call "Call Price" = Some callPrice /\
    dict_get put "Put Price" = Some putPrice /\
    - (100 * exp (- (0.04 * Rmax 0.25 T_floor))) <= callPrice
      <= 100 * exp (- (0.01 * Rmax 0.25 T_floor)) /\
    - (100 * exp (- (0.01 * Rmax 0.25 T_floor))) <= putPrice
      <= 100 * exp (- (0.04 * Rmax 0.25 T_floor)).
Proof.
  scenario H100 HT Hvol Hno.
  split; [exact logistic_cdf_range|].
  repeat (split; [assumption|]).
  exact (price_bounds logistic py_float 100 100 0.04 0.25 0.01 0.2
           logistic_cdf_range H100 H100 HT Hvol Hno).
Defined.

Lemma price_scales_with_spot_and_strike_witness :
  0 < 2 /\ 0 < 100 /\ 0 < 0.25 /\ 0 < 0.2 /\
  no_overflow py_float 0.04 0.25 0.01 0.2 /\
  exists call call' cp cp',
    OptionPricingDash.black_scholes logistic py_float
      100 100 0.04 0.25 0.01 0.2 "call"
    = (Some call, []) /\
    OptionPricingDash.black_scholes logistic py_float
      (2 * 100) (2 * 100)
      0.04 0.25 0.01 0.2 "call" = (Some call', []) /\
    dict_get call "Call Price" = Some cp /\
    dict_get call' "Call Price" = Some cp' /\
    cp' = 2 * cp.
Proof.
  scenario H100 HT Hvol Hno.
  assert (H2 : 0 < 2) by lra.
  repeat (split; [assumption|]).
  destruct (price_scales_with_spot_and_strike logistic py_float 2 100 100
              0.04 0.25 0.01 0.2 H2 H100 H100 HT Hvol Hno)
    as (call & call' & put & put' & cp & cp' & pp & pp' & cd & pd
        & H1 & H1' & _ & _ & H5 & H6 & _ & _ & _ & _ & _ & _ & H13 & _).
  exists call, call', cp, cp'. repeat split; assumption.
Defined.

Lemma mispricing_wrong_side_raises_witness :
  0 < 100 /\ 0 < 0.25 /\ 0 < 0.2 /\
  no_overflow py_float 0.04 0.25 0.01 0.2 /\
  live_data.mispricing_put 6
    (fst (OptionPricingDash.black_scholes logistic py_float
            100 100 0.04 0.25 0.01 0.2 "call"))
  = Raised (KeyError "Put Price").
Proof.
  scenario H100 HT Hvol Hno.
  repeat (split; [assumption|]).
  exact (proj1 (mispricing_wrong_side_raises logistic py_float
                  100 100 0.04 0.25 0.01 0.2 6 H100 H100 HT Hvol Hno)).
Defined.

Lemma greeks_data_of_result_witness :
  0 < 100 /\ 0 < 0.25 /\ 0 < 0.2 /\
  no_overflow py_float 0.04 0.25 0.01 0.2 /\
  "Call Delta"%string <> "Call Price"%string /\
  (forall bs,
     dict_get (greeks_data "Call Price" bs) "Call Delta"
     = dict_get bs "Call Delta") /\
  exists call,
    OptionPricingDash.black_scholes logistic py_float
      100 100 0.04 0.25 0.01 0.2 "call"
    = (Some call, []) /\
    List.length (greeks_data "Call Price" call) = 5%nat.
Proof.
  scenario H100 HT Hvol Hno.
  assert (Hne : "Call Delta"%string <> "Call Price"%string) by discriminate.
  repeat (split; [assumption|]).
  destruct (greeks_data_of_result logistic py_float 100 100 0.04 0.25 0.01 0.2)
    as [Hget Hshown].
  split.
  - intros bs. exact (proj2 (Hget "Call Price" "Call Delta" bs)%string Hne).
  - destruct (Hshown H100 H100 HT Hvol Hno)
      as (call & put & H1 & _ & _ & _ & H5 & _).
    exists call. split; assumption.
Defined.

(** An option expiring today is priced at one day. *)
Lemma expiry_floor_redundant_witness :
  0 < 100 /\ 0 < 0.2 /\
  1 / 365 <= fst (live_data.T 0) /\
  OptionPricingDash.black_scholes logistic py_float
    100 100 0.04 (fst (live_data.T 0)) 0.01 0.2 "call"
  = match OptionPricingDash.black_scholes_try logistic py_float 100 100 0.04
            (fst (live_data.T 0)) 0.01 (Rmax 0.2 vol_floor) "call" with
    | Normal result => (Some result, [])
    | Raised e =>
        (None, [("Error in Black-Scholes calculation: " ++ str_exn e)%string])
    end.
Proof.
  assert (H100 : 0 < 100) by lra.
  assert (Hvol : 0 < 0.2) by lra.
  repeat (split; [assumption|]).
  destruct (expiry_floor_redundant logistic py_float 0)
    as (_ & Hge & _ & Hprice).
  split; [exact Hge|].
  exact (Hprice 100 100 0.04 0.01 0.2 "call"%string H100 H100 Hvol).
Defined.

Lemma expiry_monotone_witness :
  (-3 <= 10)%Z /\
  fst (live_data.T (-3)) <= fst (live_data.T 10) /\
  fst (atm_option_analysis.T (-3)) <= fst (atm_option_analysis.T 10).
Proof.
  assert (H : (-3 <= 10)%Z) by discriminate.
  split; [exact H|].
  exact (expiry_monotone (-3) 10 H).
Defined.

Lemma atm_strike_exact_match_witness :
  In 101 [100; 101; 102] /\
  live_data.atm_strike [100; 101; 102] 101 = Normal 101 /\
  atm_option_analysis.atm_strike [100; 101; 102] 101 = Normal 101.
Proof.
  assert (Hin : In 101 [100; 101; 102]) by (right; left; reflexivity).
  split; [exact Hin|].
  exact (atm_strike_exact_match [100; 101; 102] 101 Hin).
Defined.

Lemma atm_distance_order_independent_witness :
  [100; 102] <> [] /\ Permutation [100; 102] [102; 100] /\
  exists k k',
    live_data.atm_strike [100; 102] 101 = Normal k /\
    live_data.atm_strike [102; 100] 101 = Normal k' /\
    Rabs (k - 101) = Rabs (k' - 101).
Proof.
  assert (Hne : [100; 102] <> []) by discriminate.
  assert (Hperm : Permutation [100; 102] [102; 100]) by apply perm_swap.
  split; [exact Hne|]. split; [exact Hperm|].
  exact (atm_distance_order_independent [100; 102] [102; 100] 101 Hne Hperm).
Defined.

Lemma mispricing_pct_inverts_witness :
  10 <> 0 /\ 0 < 10 /\
  in_range (11 - 10) /\ in_range ((11 - 10) / 10 * 100) /\
  exists m,
    mispricing_pct 11 10 = Finite m /\
    10 * (1 + m / 100) = 11 /\
    (0 < m <-> 10 < 11).
Proof.
  assert (Hne : 10 <> 0) by lra.
  assert (Hpos : 0 < 10) by lra.
  assert (Hsub : in_range (11 - 10)).
  { apply in_range_small. rewrite Rabs_right; lra. }
  assert (Hpct : in_range ((11 - 10) / 10 * 100)).
  { apply in_range_small. rewrite Rabs_right; lra. }
  split; [exact Hne|]. split; [exact Hpos|].
  split; [exact Hsub|]. split; [exact Hpct|].
  destruct (mispricing_pct_inverts 11 10 Hne Hsub Hpct)
    as (m & Hm & Hinv & Hsign).
  exists m. split; [exact Hm|]. split; [exact Hinv|].
  exact (proj1 (Hsign Hpos)).
Defined.

Lemma main_chain_report_witness :
  [quote100] <> [] /\
  exists k c p,
    live_data.main_chain logistic 101 [quote100] [quote100] 10
    = Normal (Some {| report_atm_strike := k;
                      report_T := fst (live_data.T 10);
                      report_call := c; report_put := p |}) /\
    live_data.atm_strike (strike_tolist [quote100]) 101 = Normal k /\
    c <> Skipped /\
    (p = Skipped <-> forall row, In row [quote100] -> strike row <> k).
Proof.
  assert (Hne : [quote100] <> []) by discriminate.
  split; [exact Hne|].
  destruct (main_chain_report logistic 101 [quote100] [quote100] 10 Hne Hne)
    as (k & c & p & Hmain & Hsel & _ & _ & Hc & Hp).
  exists k, c, p. repeat split; try assumption; apply Hp.
Defined.

Lemma positive_chain_always_priced_witness :
  0 < 101 /\ (forall row, In row [quote100] -> 0 < strike row) /\
  [quote100] <> [] /\
  exists rep,
    live_data.main_chain logistic 101 [quote100] [quote100] 10
    = Normal (Some rep) /\
    0 < report_atm_strike rep /\
    1 / 365 <= report_T rep /\
    report_call rep <> NoModel /\
    report_put rep <> NoModel.
Proof.
  assert (Hspot : 0 < 101) by lra.
  assert (Hstrikes : forall row, In row [quote100] -> 0 < strike row).
  { intros row [<- | []]. cbn [strike quote100]. lra. }
  assert (Hne : [quote100] <> []) by discriminate.
  split; [exact Hspot|]. split; [exact Hstrikes|]. split; [exact Hne|].
  exact (positive_chain_always_priced logistic 101 [quote100] [quote100] 10
           Hspot Hstrikes Hne Hne).
Defined.

Lemma scripts_agree_witness :
  [quote100] <> [] /\
  exists k T c p,
    live_data.main_chain logistic 101 [quote100] [quote100] 10
    = Normal (Some {| report_atm_strike := k; report_T := T;
                      report_call := c; report_put := p |}) /\
    atm_option_analysis.script_chain logistic 101 [quote100] [quote100] 10
      "Call"
    = Normal (Some {| report_atm_strike := k; report_T := T;
                      report_call := c; report_put := Skipped |}) /\
    atm_option_analysis.script_chain logistic 101 [quote100] [quote100] 10
      "Put"
    = Normal (Some {| report_atm_strike := k; report_T := T;
                      report_call := Skipped; report_put := p |}).
Proof.
  assert (Hne : [quote100] <> []) by discriminate.
  split; [exact Hne|].
  destruct (scripts_agree logistic 101 [quote100] [quote100] 10 Hne Hne)
    as (k & T & c & p & Hmain & Hcall & Hput & _).
  exists k, T, c, p. repeat split; assumption.
Defined.
